(** * mcp-obsidian: the tool handlers of [src/mcp_obsidian/server.py]

    A shallow embedding of the MCP tool handlers that proxy to the Obsidian
    vault REST client.  The handlers are Python functions; they are modelled
    here over a small universe of Python objects ([value]), with

    - the fragment of the Python runtime the handlers rely on (truthiness,
      [isinstance], [str()], [dict.get], iteration, [json.dumps(_, indent=2)]);
    - a state-and-exception monad [M] that records, in order, every client
      object constructed and every client method invoked;
    - the vault client [obsidian.Obsidian] as a parameter ([respond]): its
      module is imported by [server.py] but is not part of the file. *)

From Stdlib Require Import ZArith Ascii String List.
From stdpp Require Import base strings list gmap pretty.

Local Open Scope Z_scope.

#[local] Set Warnings "-register-all".

(** ** Python objects *)

(** The objects a handler can be handed by a caller or receive from the
    client (decoded JSON).  A [str] is a sequence of code points below 256,
    one per [ascii].  A [float] is identified by its [repr], the shortest
    decimal text that reads back as the same float (["1.5"], ["0.0"],
    ["nan"], ["inf"]).  A [dict] keeps its insertion order. *)
Inductive value : Type :=
  | VNone
  | VBool (b : bool)
  | VInt (z : Z)
  | VFloat (repr : string)
  | VStr (s : string)
  | VList (items : list value)
  | VDict (entries : list (string * value)).

(** [type(v).__name__] *)
Definition type_name (v : value) : string :=
  match v with
  | VNone => "NoneType"
  | VBool _ => "bool"
  | VInt _ => "int"
  | VFloat _ => "float"
  | VStr _ => "str"
  | VList _ => "list"
  | VDict _ => "dict"
  end.

(** [bool(v)], which is what [not v] and [if v] test. *)
Definition truthy (v : value) : bool :=
  match v with
  | VNone => false
  | VBool b => b
  | VInt z => negb (z =? 0)
  | VFloat r => negb (String.eqb r "0.0" || String.eqb r "-0.0")
  | VStr s => negb (String.eqb s EmptyString)
  | VList l => match l with [] => false | _ => true end
  | VDict d => match d with [] => false | _ => true end
  end.

(** [isinstance(v, bool)] *)
Definition isinstance_bool (v : value) : bool :=
  match v with VBool _ => true | _ => false end.

(** [isinstance(v, int)]: [bool] is a subclass of [int]. *)
Definition isinstance_int (v : value) : bool :=
  match v with VInt _ | VBool _ => true | _ => false end.

(** The integer an [int] instance stands for ([True] is 1, [False] is 0). *)
Definition int_value (v : value) : Z :=
  match v with
  | VInt z => z
  | VBool true => 1
  | _ => 0
  end.

(** ** Text *)

Definition LF : string := String (ascii_of_nat 10) EmptyString.
Definition DQ : string := String (ascii_of_nat 34) EmptyString.

Fixpoint join (sep : string) (parts : list string) : string :=
  match parts with
  | [] => EmptyString
  | [p] => p
  | p :: rest => p +:+ sep +:+ join sep rest
  end.

Definition hex_digit (n : N) : ascii :=
  ascii_of_N (if (n <? 10)%N then 48 + n else 87 + n)%N.

(** Two lower-case hexadecimal digits of a code point below 256. *)
Definition hex2 (c : ascii) : string :=
  let n := N_of_ascii c in
  String (hex_digit (n / 16)%N) (String (hex_digit (n mod 16)%N) EmptyString).

Definition char_in (lo hi : N) (c : ascii) : bool :=
  ((lo <=? N_of_ascii c) && (N_of_ascii c <=? hi))%N.

(** *** [json.dumps]: string literals

    [json.encoder.py_encode_basestring_ascii] (the default
    [ensure_ascii=True]): every character outside [' ' .. '~'], and the
    double quote and the backslash, is escaped. *)
Definition json_escape_char (c : ascii) : string :=
  match N_of_ascii c with
  | 34%N => "\" +:+ DQ
  | 92%N => "\\"
  | 8%N => "\b"
  | 12%N => "\f"
  | 10%N => "\n"
  | 13%N => "\r"
  | 9%N => "\t"
  | _ => if char_in 32 126 c then String c EmptyString else "\u00" +:+ hex2 c
  end.

Fixpoint json_escape (s : string) : string :=
  match s with
  | EmptyString => EmptyString
  | String c rest => json_escape_char c +:+ json_escape rest
  end.

Definition json_string (s : string) : string :=
  DQ +:+ json_escape s +:+ DQ.

(** *** [repr] and [str]

    [repr] of a [str] (CPython's [unicode_repr]): single quotes, unless the
    text holds a single quote and no double quote; the chosen quote and the
    backslash are escaped, and so is every non-printable character. *)
Fixpoint contains_char (c : ascii) (s : string) : bool :=
  match s with
  | EmptyString => false
  | String d rest => Ascii.eqb c d || contains_char c rest
  end.

Definition SQ_char : ascii := ascii_of_nat 39.
Definition DQ_char : ascii := ascii_of_nat 34.

Definition repr_quote (s : string) : ascii :=
  if contains_char SQ_char s && negb (contains_char DQ_char s)
  then DQ_char else SQ_char.

Definition repr_escape_char (quote c : ascii) : string :=
  if Ascii.eqb c quote || (N_of_ascii c =? 92)%N then String "\"%char (String c EmptyString)
  else match N_of_ascii c with
       | 9%N => "\t"
       | 10%N => "\n"
       | 13%N => "\r"
       | n =>
         if char_in 32 126 c then String c EmptyString
         else if char_in 161 255 c && negb (n =? 173)%N then String c EmptyString
         else "\x" +:+ hex2 c
       end.

Fixpoint repr_escape (quote : ascii) (s : string) : string :=
  match s with
  | EmptyString => EmptyString
  | String c rest => repr_escape_char quote c +:+ repr_escape quote rest
  end.

Definition repr_str (s : string) : string :=
  let q := repr_quote s in
  String q (repr_escape q s +:+ String q EmptyString).

(** [repr(v)] *)
Fixpoint py_repr (v : value) : string :=
  match v with
  | VNone => "None"
  | VBool true => "True"
  | VBool false => "False"
  | VInt z => pretty z
  | VFloat r => r
  | VStr s => repr_str s
  | VList items => "[" +:+ join ", " (map py_repr items) +:+ "]"
  | VDict entries =>
    "{" +:+ join ", " (map (fun kv => match kv with
                                     | (k, x) => repr_str k +:+ ": " +:+ py_repr x
                                     end) entries) +:+ "}"
  end.

(** [str(v)], which is what an f-string field [{v}] inserts. *)
Definition py_str (v : value) : string :=
  match v with
  | VStr s => s
  | _ => py_repr v
  end.

(** *** [json.dumps(v, indent=2)]

    The item separator is [","] and the key separator [": "]; an empty list
    or dict is written without a line break; every nesting level indents by
    two more spaces.  A [float] is written as its [repr], with the three
    non-finite values spelled the JavaScript way. *)
Fixpoint spaces (n : nat) : string :=
  match n with
  | O => EmptyString
  | S m => String " "%char (spaces m)
  end.

Definition newline_indent (level : nat) : string := LF +:+ spaces (2 * level).

Definition json_float (r : string) : string :=
  if String.eqb r "nan" then "NaN"
  else if String.eqb r "inf" then "Infinity"
  else if String.eqb r "-inf" then "-Infinity"
  else r.

Fixpoint json_encode (level : nat) (v : value) : string :=
  match v with
  | VNone => "null"
  | VBool true => "true"
  | VBool false => "false"
  | VInt z => pretty z
  | VFloat r => json_float r
  | VStr s => json_string s
  | VList [] => "[]"
  | VList items =>
    "[" +:+ newline_indent (S level)
        +:+ join ("," +:+ newline_indent (S level)) (map (json_encode (S level)) items)
        +:+ newline_indent level +:+ "]"
  | VDict [] => "{}"
  | VDict entries =>
    "{" +:+ newline_indent (S level)
        +:+ join ("," +:+ newline_indent (S level))
              (map (fun kv => match kv with
                              | (k, x) => json_string k +:+ ": " +:+ json_encode (S level) x
                              end) entries)
        +:+ newline_indent level +:+ "}"
  end.

Definition json_dumps (v : value) : string := json_encode 0 v.

(** ** Exceptions and results *)

Inductive exn : Type :=
  | RuntimeError (msg : string)
  | ValueError (msg : string)
  | TypeError (msg : string)
  | AttributeError (msg : string)
  | ClientError (cls msg : string).

Inductive outcome (A : Type) : Type :=
  | Return (a : A)
  | Raise (e : exn).
Arguments Return {A} a.
Arguments Raise {A} e.

Definition obind {A B} (o : outcome A) (k : A -> outcome B) : outcome B :=
  match o with
  | Return a => k a
  | Raise e => Raise e
  end.

Notation "'let?' x := o 'in' k" := (obind o (fun x => k))
  (at level 10, x name, o at level 100, k at level 200).

(** [obj.get(key, default)]: only a [dict] has the method. *)
Fixpoint lookup_entry (key : string) (entries : list (string * value)) : option value :=
  match entries with
  | [] => None
  | (k, x) :: rest => if String.eqb k key then Some x else lookup_entry key rest
  end.

Definition py_get (obj : value) (key : string) (dflt : value) : outcome value :=
  match obj with
  | VDict entries => Return (default dflt (lookup_entry key entries))
  | _ => Raise (AttributeError ("'" +:+ type_name obj +:+ "' object has no attribute 'get'"))
  end.

(** The items a [for] statement visits: the elements of a list, the keys of
    a dict, the characters of a str; nothing else here is iterable. *)
Fixpoint chars (s : string) : list value :=
  match s with
  | EmptyString => []
  | String c rest => VStr (String c EmptyString) :: chars rest
  end.

Definition py_iter (v : value) : outcome (list value) :=
  match v with
  | VList items => Return items
  | VDict entries => Return (map (fun kv => VStr (fst kv)) entries)
  | VStr s => Return (chars s)
  | _ => Raise (TypeError ("'" +:+ type_name v +:+ "' object is not iterable"))
  end.

(** [for x in items: body], the body updating the loop's local state. *)
Fixpoint for_in {S : Type} (items : list value) (body : value -> S -> outcome S) (s : S)
  : outcome S :=
  match items with
  | [] => Return s
  | x :: rest => let? s' := body x s in for_in rest body s'
  end.

(** ** The vault client, seen from the handlers *)

(** The methods of [obsidian.Obsidian] that [server.py] calls, with the
    arguments it passes. *)
Inductive call : Type :=
  | list_files_in_vault
  | list_files_in_dir (dirpath : string)
  | get_file_contents (filepath : string)
  | search (query : string) (context_length : value)
  | append_content (filepath content : string)
  | patch_content (filepath operation target_type target content : string)
  | put_content (filepath content : string)
  | delete_file (filepath : string)
  | search_json (query : value)
  | get_batch_file_contents (filepaths : list string)
  | get_periodic_note (period type : string)
  | get_recent_periodic_notes (period : string) (limit include_content : value)
  | get_recent_changes (limit days : value).

(** A client object: [obsidian.Obsidian(api_key=..., host=...)]. *)
Record client : Type := { client_api_key : string; client_host : string }.

(** What a handler does that the outside can observe, in order. *)
Inductive event : Type :=
  | Construct (api : client)
  | Invoke (api : client) (c : call).

Definition is_delete (e : event) : bool :=
  match e with Invoke _ (delete_file _) => true | _ => false end.

(** The module globals set when [server.py] is loaded. *)
Record config : Type := { api_key : string; obsidian_host : string }.

(** ** Module load: lines 14 to 20

    [env] is the process environment after [load_dotenv()]; [cwd] is
    [os.getcwd()].  [os.getenv(name)] is [None] for an unset variable. *)
Definition getenv (env : gmap string string) (name : string) : value :=
  from_option VStr VNone (env !! name).

Definition getenv_default (env : gmap string string) (name dflt : string) : string :=
  default dflt (env !! name).

Definition load_module (env : gmap string string) (cwd : string) : outcome config :=
  let api_key := getenv env "OBSIDIAN_API_KEY" in
  let obsidian_host := getenv_default env "OBSIDIAN_HOST" "127.0.0.1" in
  if negb (truthy api_key) then
    Raise (ValueError
      ("OBSIDIAN_API_KEY environment variable required. Working directory: " +:+ cwd))
  else
    Return {| api_key := py_str api_key; obsidian_host := obsidian_host |}.

(** ** The handler monad *)

Section Handlers.

(** The vault behind the client, and how a client method call acts on it:
    the answer (a decoded result or an exception) and the vault after. *)
Context {World : Type}.
Variable respond : client -> call -> World -> outcome value * World.

Record state : Type := { world : World; trace : list event }.

Definition M (A : Type) : Type := state -> outcome A * state.

Definition ret {A} (a : A) : M A := fun s => (Return a, s).

Definition raise {A} (e : exn) : M A := fun s => (Raise e, s).

Definition bind {A B} (m : M A) (k : A -> M B) : M B :=
  fun s => match m s with
           | (Return a, s') => k a s'
           | (Raise e, s') => (Raise e, s')
           end.

Definition lift {A} (o : outcome A) : M A := fun s => (o, s).

Definition emit (e : event) : M unit :=
  fun s => (Return tt, {| world := world s; trace := trace s ++ [e] |}).

(** [obsidian.Obsidian(api_key=k, host=h)] *)
Definition Obsidian (k h : string) : M client :=
  let api := {| client_api_key := k; client_host := h |} in
  bind (emit (Construct api)) (fun _ => ret api).

(** [api.method(args)] *)
Definition invoke (api : client) (c : call) : M value :=
  fun s => let (r, w) := respond api c (world s) in
           (r, {| world := w; trace := trace s ++ [Invoke api c] |}).

(** One tool call on a vault [w], starting from an empty trace. *)
Definition run {A} (m : M A) (w : World) : outcome A * state :=
  m {| world := w; trace := [] |}.

End Handlers.

Arguments state : clear implicits.
Arguments M : clear implicits.

Notation "'let!' x := m 'in' k" := (bind m (fun x => k))
  (at level 10, x name, m at level 100, k at level 200).

(** ** The tools: lines 25 to 262

    A parameter annotated [str] (or [list[str]]) is a [string] (a list of
    them).  The parameters a handler tests at run time ([limit], [days],
    [include_content], [confirm]) and those it hands on untested
    ([context_length], the [query] of the complex search) are arbitrary
    objects: Python does not enforce their annotations.  A parameter with a
    default value is optional. *)

Definition valid_periods : list string :=
  ["daily"; "weekly"; "monthly"; "quarterly"; "yearly"].

Definition valid_types : list string := ["content"; "metadata"].

(** [x in l] for a str and a list of str *)
Definition py_in (x : string) (l : list string) : bool :=
  existsb (String.eqb x) l.

(** The body of the inner loop of [obsidian_simple_search], lines 72 to 79. *)
Definition format_match (match_ : value) (formatted_matches : list value)
  : outcome (list value) :=
  let? context := py_get match_ "context" (VStr EmptyString) in
  let? match_pos := py_get match_ "match" (VDict []) in
  let? start := py_get match_pos "start" (VInt 0) in
  let? end_ := py_get match_pos "end" (VInt 0) in
  Return (formatted_matches ++
          [VDict [("context", context);
                  ("match_position", VDict [("start", start); ("end", end_)])]]).

(** The body of the outer loop, lines 70 to 87. *)
Definition format_result (result : value) (formatted_results : list value)
  : outcome (list value) :=
  let? matches := py_get result "matches" (VList []) in
  let? items := py_iter matches in
  let? formatted_matches := for_in items format_match [] in
  let? filename := py_get result "filename" (VStr EmptyString) in
  let? score := py_get result "score" (VInt 0) in
  Return (formatted_results ++
          [VDict [("filename", filename);
                  ("score", score);
                  ("matches", VList formatted_matches)]]).

(** Lines 68 to 89. *)
Definition format_results (results : value) : outcome value :=
  let? items := py_iter results in
  let? formatted_results := for_in items format_result [] in
  Return (VStr (json_dumps (VList formatted_results))).

Section Tools.

Context {World : Type}.
Variable respond : client -> call -> World -> outcome value * World.
Variable cfg : config.

#[local] Abbreviation invoke := (invoke respond).
#[local] Abbreviation new_client :=
  (Obsidian (World := World) (api_key cfg) (obsidian_host cfg)).

Definition obsidian_list_files_in_vault : M World value :=
  let! api := new_client in
  let! files := invoke api list_files_in_vault in
  ret (VStr (json_dumps files)).

Definition obsidian_list_files_in_dir (dirpath : string) : M World value :=
  let! api := new_client in
  let! files := invoke api (list_files_in_dir dirpath) in
  ret (VStr (json_dumps files)).

Definition obsidian_get_file_contents (filepath : string) : M World value :=
  let! api := new_client in
  let! content := invoke api (get_file_contents filepath) in
  ret (VStr (json_dumps content)).

Definition obsidian_simple_search (query : string) (context_length : option value)
  : M World value :=
  let context_length := default (VInt 100) context_length in
  let! api := new_client in
  let! results := invoke api (search query context_length) in
  lift (format_results results).

Definition obsidian_append_content (filepath content : string) : M World value :=
  let! api := new_client in
  let! _ := invoke api (append_content filepath content) in
  ret (VStr ("Successfully appended content to " +:+ filepath)).

Definition obsidian_patch_content
    (filepath operation target_type target content : string) : M World value :=
  let! api := new_client in
  let! _ := invoke api (patch_content filepath operation target_type target content) in
  ret (VStr ("Successfully patched content in " +:+ filepath)).

Definition obsidian_put_content (filepath content : string) : M World value :=
  let! api := new_client in
  let! _ := invoke api (put_content filepath content) in
  ret (VStr ("Successfully uploaded content to " +:+ filepath)).

Definition obsidian_delete_file (filepath : string) (confirm : option value)
  : M World value :=
  let confirm := default (VBool false) confirm in
  if negb (truthy confirm) then
    raise (RuntimeError "confirm must be set to true to delete a file")
  else
    let! api := new_client in
    let! _ := invoke api (delete_file filepath) in
    ret (VStr ("Successfully deleted " +:+ filepath)).

Definition obsidian_complex_search (query : value) : M World value :=
  let! api := new_client in
  let! results := invoke api (search_json query) in
  ret (VStr (json_dumps results)).

Definition obsidian_batch_get_file_contents (filepaths : list string) : M World value :=
  let! api := new_client in
  let! content := invoke api (get_batch_file_contents filepaths) in
  ret content.

Definition obsidian_get_periodic_note (period : string) (type : option string)
  : M World value :=
  let type := default "content" type in
  if negb (py_in period valid_periods) then
    raise (RuntimeError ("Invalid period: " +:+ period +:+ ". Must be one of: "
                           +:+ join ", " valid_periods))
  else if negb (py_in type valid_types) then
    raise (RuntimeError ("Invalid type: " +:+ type +:+ ". Must be one of: "
                           +:+ join ", " valid_types))
  else
    let! api := new_client in
    let! content := invoke api (get_periodic_note period type) in
    ret content.

Definition obsidian_get_recent_periodic_notes
    (period : string) (limit include_content : option value) : M World value :=
  let limit := default (VInt 5) limit in
  let include_content := default (VBool false) include_content in
  if negb (py_in period valid_periods) then
    raise (RuntimeError ("Invalid period: " +:+ period +:+ ". Must be one of: "
                           +:+ join ", " valid_periods))
  else if negb (isinstance_int limit) || (int_value limit <? 1) then
    raise (RuntimeError ("Invalid limit: " +:+ py_str limit
                           +:+ ". Must be a positive integer"))
  else if negb (isinstance_bool include_content) then
    raise (RuntimeError ("Invalid include_content: " +:+ py_str include_content
                           +:+ ". Must be a boolean"))
  else
    let! api := new_client in
    let! results := invoke api (get_recent_periodic_notes period limit include_content) in
    ret (VStr (json_dumps results)).

Definition obsidian_get_recent_changes (limit days : option value) : M World value :=
  let limit := default (VInt 10) limit in
  let days := default (VInt 90) days in
  if negb (isinstance_int limit) || (int_value limit <? 1) then
    raise (RuntimeError ("Invalid limit: " +:+ py_str limit
                           +:+ ". Must be a positive integer"))
  else if negb (isinstance_int days) || (int_value days <? 1) then
    raise (RuntimeError ("Invalid days: " +:+ py_str days
                           +:+ ". Must be a positive integer"))
  else
    let! api := new_client in
    let! results := invoke api (get_recent_changes limit days) in
    ret (VStr (json_dumps results)).

End Tools.

(** ** The tool registry

    One constructor per function decorated with [@mcp.tool()], carrying the
    arguments of the call; a parameter with a default value is optional. *)
Inductive request : Type :=
  | req_list_files_in_vault
  | req_list_files_in_dir (dirpath : string)
  | req_get_file_contents (filepath : string)
  | req_simple_search (query : string) (context_length : option value)
  | req_append_content (filepath content : string)
  | req_patch_content (filepath operation target_type target content : string)
  | req_put_content (filepath content : string)
  | req_delete_file (filepath : string) (confirm : option value)
  | req_complex_search (query : value)
  | req_batch_get_file_contents (filepaths : list string)
  | req_get_periodic_note (period : string) (type : option string)
  | req_get_recent_periodic_notes (period : string) (limit include_content : option value)
  | req_get_recent_changes (limit days : option value).

Section Server.

Context {World : Type}.
Variable respond : client -> call -> World -> outcome value * World.

Definition handle (cfg : config) (r : request) : M World value :=
  match r with
  | req_list_files_in_vault => obsidian_list_files_in_vault respond cfg
  | req_list_files_in_dir d => obsidian_list_files_in_dir respond cfg d
  | req_get_file_contents f => obsidian_get_file_contents respond cfg f
  | req_simple_search q n => obsidian_simple_search respond cfg q n
  | req_append_content f c => obsidian_append_content respond cfg f c
  | req_patch_content f o k t c => obsidian_patch_content respond cfg f o k t c
  | req_put_content f c => obsidian_put_content respond cfg f c
  | req_delete_file f c => obsidian_delete_file respond cfg f c
  | req_complex_search q => obsidian_complex_search respond cfg q
  | req_batch_get_file_contents fs => obsidian_batch_get_file_contents respond cfg fs
  | req_get_periodic_note p t => obsidian_get_periodic_note respond cfg p t
  | req_get_recent_periodic_notes p l i =>
    obsidian_get_recent_periodic_notes respond cfg p l i
  | req_get_recent_changes l d => obsidian_get_recent_changes respond cfg l d
  end.

(** The process: the module is loaded, and only then can a tool be called. *)
Definition serve (env : gmap string string) (cwd : string) (r : request) (w : World)
  : outcome value * state World :=
  match load_module env cwd with
  | Raise e => (Raise e, {| world := w; trace := [] |})
  | Return cfg => run (handle cfg r) w
  end.

End Server.

(** ** Specification vocabulary *)

Section Vocabulary.

Context {World : Type}.
Variable respond : client -> call -> World -> outcome value * World.
Variable cfg : config.

Definition the_client : client :=
  {| client_api_key := api_key cfg; client_host := obsidian_host cfg |}.

(** The handler raises [e] before a client is constructed or called. *)
Definition rejects (h : M World value) (e : exn) : Prop :=
  forall w, run h w = (Raise e, {| world := w; trace := [] |}).

(** The handler constructs one client and calls [c] on it, once, and
    nothing else; it returns [post] of the client's answer, and raises
    whatever the client raises. *)
Definition calls_once (h : M World value) (c : call) (post : value -> outcome value)
  : Prop :=
  forall w,
    run h w =
    (obind (respond the_client c w).1 post,
     {| world := (respond the_client c w).2;
        trace := [Construct the_client; Invoke the_client c] |}).

Definition as_json (r : value) : outcome value := Return (VStr (json_dumps r)).

Definition confirmation (text : string) (_ : value) : outcome value :=
  Return (VStr text).

End Vocabulary.

(** [needle] occurs in [text] *)
Definition occurs_in (needle text : string) : Prop :=
  exists before after, text = before +:+ needle +:+ after.

(** How many times the client's delete operation was invoked. *)
Definition deletions (t : list event) : nat := length (filter is_delete t).

(** ** The search result shape, in the words of the specification

    SearchResult: a sequence of {filename, score, matches}, each match
    being {context, match_position: {start, end}}; a field absent from the
    raw result is replaced by its default. *)
Definition field (key : string) (dflt : value) (record : value) : value :=
  match record with
  | VDict entries => default dflt (lookup_entry key entries)
  | _ => dflt
  end.

Definition items_of (v : value) : list value :=
  match v with
  | VList items => items
  | _ => []
  end.

Definition match_shape (raw : value) : value :=
  let position := field "match" (VDict []) raw in
  VDict [("context", field "context" (VStr EmptyString) raw);
         ("match_position", VDict [("start", field "start" (VInt 0) position);
                                   ("end", field "end" (VInt 0) position)])].

Definition result_shape (raw : value) : value :=
  VDict [("filename", field "filename" (VStr EmptyString) raw);
         ("score", field "score" (VInt 0) raw);
         ("matches", VList (map match_shape (items_of (field "matches" (VList []) raw))))].

(** A raw match is a record whose position, when present, is a record; a
    raw result is a record whose matches, when present, are a sequence of
    raw matches.  Every other field may be absent or hold anything. *)
Definition is_raw_match (m : value) : bool :=
  match m with
  | VDict entries =>
    match lookup_entry "match" entries with
    | None | Some (VDict _) => true
    | Some _ => false
    end
  | _ => false
  end.

Definition is_raw_result (r : value) : bool :=
  match r with
  | VDict entries =>
    match lookup_entry "matches" entries with
    | None => true
    | Some (VList ms) => forallb is_raw_match ms
    | Some _ => false
    end
  | _ => false
  end.

(** The keys of a record, in order. *)
Definition keys (v : value) : list string :=
  match v with
  | VDict entries => map fst entries
  | _ => []
  end.

(** ** The parameters the docstring of [obsidian_patch_content] lists
    (lines 113 and 114); the handler itself holds no such table. *)
Definition documented_operations : list string := ["append"; "prepend"; "replace"].
Definition documented_target_types : list string := ["heading"; "block"; "frontmatter"].

(** ** The client's batch read *)

Section BatchRead.

(** The header line that identifies a path, and the marker that stands
    for a file that could not be read; the specification fixes neither
    text. *)
Variable header : string -> string.
Variable error_marker : string -> string.

Definition batch_entry (files : gmap string string) (filepath : string) : string :=
  match files !! filepath with
  | Some content => header filepath +:+ content
  | None => error_marker filepath
  end.

(** Modelled from the spec: the client method [get_batch_file_contents] of
    the [obsidian] module, which [server.py] imports and which is not among
    the sources.  Section 4.1: a single concatenated text blob; each file's
    content is preceded by a header line identifying its path; missing
    files produce an inline error marker within the blob rather than
    aborting the whole batch. *)
Definition getBatchFileContents (files : gmap string string) (filepaths : list string)
  : string :=
  join EmptyString (map (batch_entry files) filepaths).

End BatchRead.

(** ** A vault in memory, for running the handlers on concrete calls *)

Definition demo_header (filepath : string) : string := "# " +:+ filepath +:+ LF.

Definition demo_error_marker (filepath : string) : string :=
  "# " +:+ filepath +:+ LF +:+ "Error reading file" +:+ LF.

Definition demo_hits : list value :=
  [VDict [("filename", VStr "notes/a.md");
          ("score", VFloat "1.5");
          ("matches", VList [VDict [("context", VStr "alpha beta");
                                    ("match", VDict [("start", VInt 0);
                                                     ("end", VInt 5)])];
                             VDict [("match", VDict [("start", VInt 6)])]])];
   VDict []].

Definition demo_vault (api : client) (c : call) (files : gmap string string)
  : outcome value * gmap string string :=
  match c with
  | get_file_contents p =>
    match files !! p with
    | Some text => (Return (VStr text), files)
    | None => (Raise (ClientError "Exception" "Error 40400: Not Found"), files)
    end
  | put_content p text => (Return VNone, <[p := text]> files)
  | delete_file p => (Return VNone, delete p files)
  | get_batch_file_contents ps =>
    (Return (VStr (getBatchFileContents demo_header demo_error_marker files ps)), files)
  | search _ _ => (Return (VList demo_hits), files)
  | append_content p text =>
    (Return VNone, <[p := default EmptyString (files !! p) +:+ text]> files)
  | patch_content _ _ _ _ _ => (Return VNone, files)
  | _ => (Return (VList []), files)
  end.

Definition demo_files : gmap string string :=
  {[ "notes/a.md" := "alpha beta" ]}.

Definition demo_cfg : config :=
  {| api_key := "secret"; obsidian_host := "127.0.0.1" |}.

Definition demo_env : gmap string string := {[ "OBSIDIAN_API_KEY" := "secret" ]}.

(** ** Further vocabulary *)

(** How many clients a trace constructs, and how many client methods it
    invokes. *)
Definition is_construct (e : event) : bool :=
  match e with Construct _ => true | _ => false end.

Definition is_invoke (e : event) : bool :=
  match e with Invoke _ _ => true | _ => false end.

Definition constructions (t : list event) : nat := length (filter is_construct t).

Definition invocations (t : list event) : nat := length (filter is_invoke t).

(** The client an event is about. *)
Definition event_client (e : event) : client :=
  match e with Construct api | Invoke api _ => api end.

(** The values the guard [not isinstance(x, int) or x < 1] lets through: the
    integers from 1 on, and [True]. *)
Definition passes_count_guard (v : value) : bool :=
  match v with
  | VInt n => 1 <=? n
  | VBool b => b
  | _ => false
  end.

(** The raw results on which the loops of [obsidian_simple_search] run to
    their end: a record whose matches are absent, or a list of raw matches,
    or something that iterates over nothing (the empty str, the empty
    dict). *)
Definition formattable_result (r : value) : bool :=
  match r with
  | VDict entries =>
    match lookup_entry "matches" entries with
    | None => true
    | Some (VList ms) => forallb is_raw_match ms
    | Some (VStr s) => String.eqb s EmptyString
    | Some (VDict d) => match d with [] => true | _ => false end
    | Some _ => false
    end
  | _ => false
  end.

Definition formattable_results (results : value) : bool :=
  match results with
  | VList rs => forallb formattable_result rs
  | VStr s => String.eqb s EmptyString
  | VDict d => match d with [] => true | _ => false end
  | _ => false
  end.

(** Reading a JSON string body back: the inverse of [json_escape], used to
    show that the escaping loses nothing. *)
Definition hex_value (c : ascii) : option N :=
  if char_in 48 57 c then Some (N_of_ascii c - 48)%N
  else if char_in 97 102 c then Some (N_of_ascii c - 87)%N
  else None.

Fixpoint json_unescape (s : string) : option string :=
  match s with
  | EmptyString => Some EmptyString
  | String c rest =>
    if (N_of_ascii c =? 92)%N then
      match rest with
      | String e rest' =>
        match N_of_ascii e with
        | 34%N => String (ascii_of_nat 34) <$> json_unescape rest'
        | 92%N => String (ascii_of_nat 92) <$> json_unescape rest'
        | 98%N => String (ascii_of_nat 8) <$> json_unescape rest'
        | 102%N => String (ascii_of_nat 12) <$> json_unescape rest'
        | 110%N => String (ascii_of_nat 10) <$> json_unescape rest'
        | 114%N => String (ascii_of_nat 13) <$> json_unescape rest'
        | 116%N => String (ascii_of_nat 9) <$> json_unescape rest'
        | 117%N =>
          match rest' with
          | String _ (String _ (String h (String l rest''))) =>
            match hex_value h, hex_value l with
            | Some a, Some b => String (ascii_of_N (16 * a + b)) <$> json_unescape rest''
            | _, _ => None
            end
          | _ => None
          end
        | _ => None
        end
      | EmptyString => None
      end
    else String c <$> json_unescape rest
  end.

(** The classes of input the numeric and boolean guards are about. *)
Definition positive_integer (v : value) : Prop :=
  exists n, v = VInt n /\ 1 <= n.

Definition non_integer (v : value) : Prop := isinstance_int v = false.

Definition zero_or_negative (v : value) : Prop :=
  exists n, v = VInt n /\ n <= 0.

Definition non_boolean (v : value) : Prop := isinstance_bool v = false.

(** * Properties *)

(** ** Text *)

Lemma append_cons (x : ascii) (a b : string) : String x a +:+ b = String x (a +:+ b).
Proof. reflexivity. Qed.

Lemma append_nil_l (b : string) : EmptyString +:+ b = b.
Proof. reflexivity. Qed.

Lemma append_assoc (a b c : string) : (a +:+ b) +:+ c = a +:+ b +:+ c.
Proof.
  induction a as [|x a IH]; [reflexivity|]. rewrite !append_cons. now rewrite IH.
Qed.

Lemma append_nil_r (a : string) : a +:+ EmptyString = a.
Proof.
  induction a as [|x a IH]; [reflexivity|]. rewrite append_cons. now rewrite IH.
Qed.

Lemma length_append (a b : string) :
  String.length (a +:+ b) = (String.length a + String.length b)%nat.
Proof.
  induction a as [|x a IH]; [reflexivity|]. rewrite append_cons. simpl. now rewrite IH.
Qed.

Example json_dumps_nested :
  json_dumps (VList [VInt 1; VList [VBool true; VNone]; VDict []; VFloat "nan"])
  = "[
  1,
  [
    true,
    null
  ],
  {},
  NaN
]".
Proof. reflexivity. Qed.

Example json_dumps_escapes :
  json_dumps (VStr ("tab" +:+ String (ascii_of_nat 9) "back\slash"
                          +:+ String (ascii_of_nat 233) EmptyString))
  = DQ +:+ "tab\tback\\slash\u00e9" +:+ DQ.
Proof. reflexivity. Qed.

Example py_str_list :
  py_str (VList [VInt (-3); VStr "it's"; VStr "a"; VFloat "1.5"; VNone;
                 VDict [("k", VBool false)]])
  = "[-3, " +:+ DQ +:+ "it's" +:+ DQ +:+ ", 'a', 1.5, None, {'k': False}]".
Proof. reflexivity. Qed.

Example format_results_demo :
  format_results (VList [VDict [("filename", VStr "a.md");
                                ("matches", VList [VDict [("match", VDict [("end", VInt 4)])]])]])
  = Return (VStr (json_dumps
      (VList [VDict [("filename", VStr "a.md");
                     ("score", VInt 0);
                     ("matches",
                      VList [VDict [("context", VStr EmptyString);
                                    ("match_position",
                                     VDict [("start", VInt 0); ("end", VInt 4)])]])]]))).
Proof. reflexivity. Qed.

Example format_results_not_iterable :
  format_results VNone = Raise (TypeError "'NoneType' object is not iterable").
Proof. reflexivity. Qed.

Lemma occurs_in_refl (x : string) : occurs_in x x.
Proof. exists EmptyString, EmptyString. now rewrite append_nil_l, append_nil_r. Qed.

Lemma occurs_in_append_l (x a b : string) : occurs_in x a -> occurs_in x (a +:+ b).
Proof.
  intros (p & q & ->). exists p, (q +:+ b). now rewrite !append_assoc.
Qed.

Lemma occurs_in_append_r (x a b : string) : occurs_in x b -> occurs_in x (a +:+ b).
Proof.
  intros (p & q & ->). exists (a +:+ p), q. now rewrite !append_assoc.
Qed.

Lemma py_in_elem_of (x : string) (l : list string) : py_in x l = true <-> x ∈ l.
Proof.
  unfold py_in. rewrite existsb_exists, list_elem_of_In. split.
  - intros (y & Hy & Heq). apply String.eqb_eq in Heq. now subst.
  - intros H. exists x. split; [exact H | apply String.eqb_refl].
Qed.

Lemma py_in_not_elem_of (x : string) (l : list string) : py_in x l = false <-> x ∉ l.
Proof.
  rewrite <- py_in_elem_of. destruct (py_in x l); split; congruence.
Qed.

Section Properties.

Context {World : Type}.
Variable respond : client -> call -> World -> outcome value * World.
Variable cfg : config.

#[local] Abbreviation rejects := (rejects (World := World)).
#[local] Abbreviation calls_once := (calls_once respond cfg).

(** The shape shared by every handler once its guards have passed. *)
Lemma construct_invoke_then (c : call) (post : value -> outcome value) :
  calls_once
    (let! api := Obsidian (api_key cfg) (obsidian_host cfg) in
     let! r := invoke respond api c in
     lift (post r))
    c post.
Proof.
  intros w. unfold run, bind, Obsidian, invoke, emit, ret, lift, the_client. simpl.
  destruct (respond _ c w) as [[v|e] w']; reflexivity.
Qed.

Lemma calls_once_trace h c post w :
  calls_once h c post ->
  trace (run h w).2 = [Construct (the_client cfg); Invoke (the_client cfg) c].
Proof. intros H. rewrite (H w). reflexivity. Qed.

(** C1: [obsidian_delete_file] with [confirm] absent or falsy raises and
    never invokes the client's delete operation (no client is even
    constructed); with [confirm = True] it invokes the delete operation
    exactly once, on the given path. *)
Theorem delete_file_requires_confirm (filepath : string) :
  (forall confirm,
      truthy (default (VBool false) confirm) = false ->
      rejects (obsidian_delete_file respond cfg filepath confirm)
              (RuntimeError "confirm must be set to true to delete a file")
      /\ forall w, deletions
                     (trace (run (obsidian_delete_file respond cfg filepath confirm) w).2)
                   = 0%nat)
  /\ (forall confirm w,
         confirm = Some (VBool true) ->
         let t := trace (run (obsidian_delete_file respond cfg filepath confirm) w).2 in
         t = [Construct (the_client cfg); Invoke (the_client cfg) (delete_file filepath)]
         /\ deletions t = 1%nat).
Proof.
  split.
  - intros confirm Hfalsy.
    assert (Hrej : rejects (obsidian_delete_file respond cfg filepath confirm)
                     (RuntimeError "confirm must be set to true to delete a file")).
    { intros w. unfold run, obsidian_delete_file. rewrite Hfalsy. reflexivity. }
    split; [exact Hrej|]. intros w. rewrite (Hrej w). reflexivity.
  - intros confirm w ->. cbn zeta.
    assert (H : calls_once (obsidian_delete_file respond cfg filepath (Some (VBool true)))
                  (delete_file filepath)
                  (confirmation ("Successfully deleted " +:+ filepath))).
    { apply (construct_invoke_then (delete_file filepath)
               (confirmation ("Successfully deleted " +:+ filepath))). }
    rewrite (calls_once_trace _ _ _ w H). split; reflexivity.
Qed.

(** ** Guards *)

Lemma periodic_note_rejects_period period type :
  period ∉ valid_periods ->
  rejects (obsidian_get_periodic_note respond cfg period type)
    (RuntimeError ("Invalid period: " +:+ period
                     +:+ ". Must be one of: daily, weekly, monthly, quarterly, yearly")).
Proof.
  intros H%py_in_not_elem_of w. unfold run, obsidian_get_periodic_note.
  rewrite H. reflexivity.
Qed.

Lemma periodic_note_rejects_type period type :
  period ∈ valid_periods -> type ∉ valid_types ->
  rejects (obsidian_get_periodic_note respond cfg period (Some type))
    (RuntimeError ("Invalid type: " +:+ type +:+ ". Must be one of: content, metadata")).
Proof.
  intros Hp%py_in_elem_of Ht%py_in_not_elem_of w.
  unfold run, obsidian_get_periodic_note. cbn [default from_option id].
  rewrite Hp, Ht. reflexivity.
Qed.

Lemma recent_periodic_notes_rejects_period period limit include_content :
  period ∉ valid_periods ->
  rejects (obsidian_get_recent_periodic_notes respond cfg period limit include_content)
    (RuntimeError ("Invalid period: " +:+ period
                     +:+ ". Must be one of: daily, weekly, monthly, quarterly, yearly")).
Proof.
  intros H%py_in_not_elem_of w. unfold run, obsidian_get_recent_periodic_notes.
  rewrite H. reflexivity.
Qed.

Lemma count_guard_fails (v : value) :
  zero_or_negative v \/ non_integer v ->
  negb (isinstance_int v) || (int_value v <? 1) = true.
Proof.
  intros [(n & -> & Hn) | Hv].
  - simpl. apply Z.ltb_lt. lia.
  - unfold non_integer in Hv. now rewrite Hv.
Qed.

Lemma count_guard_passes (n : Z) :
  1 <= n -> negb (isinstance_int (VInt n)) || (int_value (VInt n) <? 1) = false.
Proof. intros Hn. simpl. apply Z.ltb_ge. exact Hn. Qed.

Lemma recent_periodic_notes_rejects_limit period v include_content :
  period ∈ valid_periods ->
  zero_or_negative v \/ non_integer v ->
  rejects (obsidian_get_recent_periodic_notes respond cfg period (Some v) include_content)
    (RuntimeError ("Invalid limit: " +:+ py_str v +:+ ". Must be a positive integer")).
Proof.
  intros Hp%py_in_elem_of Hv%count_guard_fails w.
  unfold run, obsidian_get_recent_periodic_notes. cbn [default from_option id].
  rewrite Hp. cbn [negb]. rewrite Hv. reflexivity.
Qed.

Lemma recent_periodic_notes_rejects_include_content period n v :
  period ∈ valid_periods -> 1 <= n -> non_boolean v ->
  rejects (obsidian_get_recent_periodic_notes respond cfg period (Some (VInt n)) (Some v))
    (RuntimeError ("Invalid include_content: " +:+ py_str v +:+ ". Must be a boolean")).
Proof.
  intros Hp%py_in_elem_of Hn%count_guard_passes Hv w.
  unfold run, obsidian_get_recent_periodic_notes. cbn [default from_option id].
  rewrite Hp. cbn [negb]. rewrite Hn. unfold non_boolean in Hv. rewrite Hv.
  reflexivity.
Qed.

Lemma recent_periodic_notes_accepts period n b :
  period ∈ valid_periods -> 1 <= n ->
  calls_once
    (obsidian_get_recent_periodic_notes respond cfg period (Some (VInt n)) (Some (VBool b)))
    (get_recent_periodic_notes period (VInt n) (VBool b))
    as_json.
Proof.
  intros Hp%py_in_elem_of Hn%count_guard_passes.
  unfold obsidian_get_recent_periodic_notes. cbn [default from_option id].
  rewrite Hp. cbn [negb]. rewrite Hn. cbn [isinstance_bool negb].
  apply (construct_invoke_then _ as_json).
Qed.

Lemma recent_changes_rejects_limit v days :
  zero_or_negative v \/ non_integer v ->
  rejects (obsidian_get_recent_changes respond cfg (Some v) days)
    (RuntimeError ("Invalid limit: " +:+ py_str v +:+ ". Must be a positive integer")).
Proof.
  intros Hv%count_guard_fails w.
  unfold run, obsidian_get_recent_changes. cbn [default from_option id].
  rewrite Hv. reflexivity.
Qed.

Lemma recent_changes_rejects_days n v :
  1 <= n ->
  zero_or_negative v \/ non_integer v ->
  rejects (obsidian_get_recent_changes respond cfg (Some (VInt n)) (Some v))
    (RuntimeError ("Invalid days: " +:+ py_str v +:+ ". Must be a positive integer")).
Proof.
  intros Hn%count_guard_passes Hv%count_guard_fails w.
  unfold run, obsidian_get_recent_changes. cbn [default from_option id].
  rewrite Hn, Hv. reflexivity.
Qed.

Lemma recent_changes_accepts n d :
  1 <= n -> 1 <= d ->
  calls_once
    (obsidian_get_recent_changes respond cfg (Some (VInt n)) (Some (VInt d)))
    (get_recent_changes (VInt n) (VInt d))
    as_json.
Proof.
  intros Hn%count_guard_passes Hd%count_guard_passes.
  unfold obsidian_get_recent_changes. cbn [default from_option id].
  rewrite Hn, Hd. apply (construct_invoke_then _ as_json).
Qed.

Lemma simple_search_passes_context_length query context_length :
  calls_once (obsidian_simple_search respond cfg query context_length)
    (search query (default (VInt 100) context_length)) format_results.
Proof. apply (construct_invoke_then _ format_results). Qed.

(** ** The search formatting loops *)

Lemma format_match_shape (m : value) (acc : list value) :
  is_raw_match m = true ->
  format_match m acc = Return (acc ++ [match_shape m]).
Proof.
  destruct m as [| | | | |?|entries]; try discriminate. intros Hm.
  unfold format_match, match_shape, field, py_get, obind. simpl in Hm.
  destruct (lookup_entry "match" entries) as [[| | | | | |position]|];
    try discriminate; reflexivity.
Qed.

Lemma format_matches_shape (items acc : list value) :
  forallb is_raw_match items = true ->
  for_in items format_match acc = Return (acc ++ map match_shape items).
Proof.
  revert acc. induction items as [|m rest IH]; intros acc Hitems.
  - simpl. now rewrite app_nil_r.
  - simpl in Hitems. apply andb_true_iff in Hitems as [Hm Hrest].
    simpl. rewrite (format_match_shape m acc Hm). unfold obind.
    rewrite (IH _ Hrest), <- app_assoc. reflexivity.
Qed.

Lemma format_result_shape (r : value) (acc : list value) :
  is_raw_result r = true ->
  format_result r acc = Return (acc ++ [result_shape r]).
Proof.
  destruct r as [| | | | |?|entries]; try discriminate. intros Hr.
  unfold format_result, result_shape, field, py_get. simpl in Hr.
  destruct (lookup_entry "matches" entries) as [[| | | | |ms|]|];
    try discriminate; cbn [default from_option id obind py_iter items_of].
  - rewrite (format_matches_shape ms [] Hr). reflexivity.
  - reflexivity.
Qed.

Lemma format_results_shape (results : list value) :
  forallb is_raw_result results = true ->
  format_results (VList results)
  = Return (VStr (json_dumps (VList (map result_shape results)))).
Proof.
  intros Hresults. unfold format_results. cbn [py_iter obind].
  assert (H : forall acc, for_in results format_result acc
                          = Return (acc ++ map result_shape results)).
  { clear -Hresults. induction results as [|r rest IH]; intros acc.
    - simpl. now rewrite app_nil_r.
    - simpl in Hresults. apply andb_true_iff in Hresults as [Hr Hrest].
      simpl. rewrite (format_result_shape r acc Hr). unfold obind.
      rewrite (IH Hrest), <- app_assoc. reflexivity. }
  rewrite H. reflexivity.
Qed.

Lemma format_results_json (results text : value) :
  format_results results = Return text ->
  exists shaped, text = VStr (json_dumps (VList shaped)).
Proof.
  unfold format_results, obind. destruct (py_iter results) as [items|]; [|discriminate].
  destruct (for_in items format_result []) as [shaped|]; [|discriminate].
  intros [= <-]. now exists shaped.
Qed.

(** C5: on a sequence of raw search results, [obsidian_simple_search]
    returns the indented JSON of one record per raw result, in the same
    order, each with exactly the keys filename, score and matches, every
    match with exactly the keys context and match_position (of keys start
    and end); each field is read from the raw result, with the empty string
    for a missing filename or context and 0 for a missing score, start or
    end; the matches keep their order too. *)
Theorem simple_search_formats_results
    (query : string) (context_length : option value) (results : list value) (w : World) :
  (respond (the_client cfg) (search query (default (VInt 100) context_length)) w).1
  = Return (VList results) ->
  forallb is_raw_result results = true ->
  (run (obsidian_simple_search respond cfg query context_length) w).1
  = Return (VStr (json_dumps (VList (map result_shape results))))
  /\ (forall i raw, results !! i = Some raw ->
        exists shaped,
          map result_shape results !! i = Some shaped
          /\ keys shaped = ["filename"; "score"; "matches"]
          /\ field "filename" VNone shaped = field "filename" (VStr EmptyString) raw
          /\ field "score" VNone shaped = field "score" (VInt 0) raw
          /\ forall j m, items_of (field "matches" (VList []) raw) !! j = Some m ->
               exists sm,
                 items_of (field "matches" VNone shaped) !! j = Some sm
                 /\ keys sm = ["context"; "match_position"]
                 /\ keys (field "match_position" VNone sm) = ["start"; "end"]
                 /\ sm = match_shape m).
Proof.
  intros Hanswer Hraw. split.
  - rewrite (simple_search_passes_context_length query context_length w). cbn [fst].
    rewrite Hanswer. cbn [obind]. apply format_results_shape, Hraw.
  - intros i raw Hi. exists (result_shape raw). split.
    { change (map result_shape results) with (result_shape <$> results).
      rewrite list_lookup_fmap, Hi. reflexivity. }
    repeat split.
    intros j m Hj. exists (match_shape m). repeat split.
    cbn. change (map match_shape ?l) with (match_shape <$> l).
    rewrite list_lookup_fmap, Hj. reflexivity.
Qed.

(** C6: [obsidian_complex_search] hands the query, whatever value it is, to
    the client's [search_json] as received, in the one client call it makes,
    and returns the indented JSON of exactly what that call returned: the
    handler neither inspects the query nor filters the results. *)
Theorem complex_search_passes_query_through (query : value) :
  calls_once (obsidian_complex_search respond cfg query) (search_json query) as_json.
Proof. apply (construct_invoke_then (search_json query) as_json). Qed.

(** C2 (as amended): in [obsidian_get_periodic_note] a period outside
    daily, weekly, monthly, quarterly, yearly, and (the period being valid)
    a type outside content, metadata, and in
    [obsidian_get_recent_periodic_notes] a period outside the same set,
    make the handler raise an error that names the offending value and the
    valid set, before a client is constructed or called. *)
Theorem enum_parameters_are_validated (period : string) :
  (period ∉ valid_periods ->
     (forall type,
         rejects (obsidian_get_periodic_note respond cfg period type)
           (RuntimeError ("Invalid period: " +:+ period
              +:+ ". Must be one of: daily, weekly, monthly, quarterly, yearly")))
     /\ (forall limit include_content,
           rejects
             (obsidian_get_recent_periodic_notes respond cfg period limit include_content)
             (RuntimeError ("Invalid period: " +:+ period
                +:+ ". Must be one of: daily, weekly, monthly, quarterly, yearly"))))
  /\ (period ∈ valid_periods ->
      forall type,
        type ∉ valid_types ->
        rejects (obsidian_get_periodic_note respond cfg period (Some type))
          (RuntimeError ("Invalid type: " +:+ type
             +:+ ". Must be one of: content, metadata"))).
Proof.
  split.
  - intros Hperiod. split.
    + intros type. now apply periodic_note_rejects_period.
    + intros limit include_content. now apply recent_periodic_notes_rejects_period.
  - intros Hperiod type Htype. now apply periodic_note_rejects_type.
Qed.

(** C3 (as amended): [limit] of [obsidian_get_recent_periodic_notes] and of
    [obsidian_get_recent_changes], and [days] of the latter, are guarded: a
    zero, a negative integer and a value that is no integer (None, a float,
    a string, a list, a dict) make the handler raise before a client is
    constructed or called; a positive integer reaches the client call
    unchanged, and so does a positive integer given as [context_length] to
    [obsidian_simple_search]. *)
Theorem count_parameters_are_validated :
  (forall v,
      zero_or_negative v \/ non_integer v ->
      (forall period include_content,
          exists msg,
            rejects
              (obsidian_get_recent_periodic_notes respond cfg period (Some v) include_content)
              (RuntimeError msg))
      /\ (forall days,
            rejects (obsidian_get_recent_changes respond cfg (Some v) days)
              (RuntimeError ("Invalid limit: " +:+ py_str v
                               +:+ ". Must be a positive integer")))
      /\ (forall n,
            1 <= n ->
            rejects (obsidian_get_recent_changes respond cfg (Some (VInt n)) (Some v))
              (RuntimeError ("Invalid days: " +:+ py_str v
                               +:+ ". Must be a positive integer"))))
  /\ (forall n,
        1 <= n ->
        (forall period b,
            period ∈ valid_periods ->
            calls_once
              (obsidian_get_recent_periodic_notes respond cfg period
                 (Some (VInt n)) (Some (VBool b)))
              (get_recent_periodic_notes period (VInt n) (VBool b)) as_json)
        /\ (forall d,
              1 <= d ->
              calls_once
                (obsidian_get_recent_changes respond cfg (Some (VInt n)) (Some (VInt d)))
                (get_recent_changes (VInt n) (VInt d)) as_json)
        /\ (forall query,
              calls_once (obsidian_simple_search respond cfg query (Some (VInt n)))
                (search query (VInt n)) format_results)).
Proof.
  split.
  - intros v Hv. split; [|split].
    + intros period include_content.
      destruct (py_in period valid_periods) eqn:Hperiod.
      * eexists. apply recent_periodic_notes_rejects_limit; [|exact Hv].
        now apply py_in_elem_of.
      * eexists. apply recent_periodic_notes_rejects_period.
        now apply py_in_not_elem_of.
    + intros days. now apply recent_changes_rejects_limit.
    + intros n Hn. now apply recent_changes_rejects_days.
  - intros n Hn. split; [|split].
    + intros period b Hperiod. now apply recent_periodic_notes_accepts.
    + intros d Hd. now apply recent_changes_accepts.
    + intros query. apply (simple_search_passes_context_length query (Some (VInt n))).
Qed.

(** C7 (as amended): a value of [include_content] that is not a boolean
    makes [obsidian_get_recent_periodic_notes] raise before a client is
    constructed or called, with an error that names the value once the
    period and the limit are valid.  [obsidian_delete_file] does not test
    the type of [confirm]: every falsy value, boolean or not, makes it raise
    before a client is constructed or called. *)
Theorem boolean_parameters_are_validated (v : value) :
  (non_boolean v ->
     (forall period limit,
         exists msg,
           rejects
             (obsidian_get_recent_periodic_notes respond cfg period limit (Some v))
             (RuntimeError msg))
     /\ (forall period n,
           period ∈ valid_periods -> 1 <= n ->
           rejects
             (obsidian_get_recent_periodic_notes respond cfg period (Some (VInt n)) (Some v))
             (RuntimeError ("Invalid include_content: " +:+ py_str v
                              +:+ ". Must be a boolean"))))
  /\ (truthy v = false ->
      forall filepath,
        rejects (obsidian_delete_file respond cfg filepath (Some v))
          (RuntimeError "confirm must be set to true to delete a file")).
Proof.
  split.
  - intros Hv. split.
    + intros period limit.
      destruct (py_in period valid_periods) eqn:Hperiod.
      * destruct (negb (isinstance_int (default (VInt 5) limit))
                  || (int_value (default (VInt 5) limit) <? 1)) eqn:Hlimit.
        -- eexists. intros w. unfold run, obsidian_get_recent_periodic_notes.
           rewrite Hperiod. cbn [negb]. rewrite Hlimit. reflexivity.
        -- eexists. intros w. unfold run, obsidian_get_recent_periodic_notes.
           rewrite Hperiod. cbn [negb]. rewrite Hlimit.
           unfold non_boolean in Hv. cbn [default from_option id]. rewrite Hv.
           reflexivity.
      * eexists. apply recent_periodic_notes_rejects_period.
        now apply py_in_not_elem_of.
    + intros period n Hperiod Hn. now apply recent_periodic_notes_rejects_include_content.
  - intros Hv filepath w. unfold run, obsidian_delete_file.
    cbn [default from_option id]. rewrite Hv. reflexivity.
Qed.

(** C10: for every integer [limit >= 1], however large,
    [obsidian_get_recent_periodic_notes] and [obsidian_get_recent_changes]
    (their other arguments being valid) raise nothing of their own and pass
    that very integer to the client call: the handlers enforce no upper
    bound, the docstrings' "max: 50" and "max: 100" notwithstanding. *)
Theorem limit_has_no_upper_bound (limit : Z) :
  1 <= limit ->
  (forall period b,
      period ∈ valid_periods ->
      calls_once
        (obsidian_get_recent_periodic_notes respond cfg period
           (Some (VInt limit)) (Some (VBool b)))
        (get_recent_periodic_notes period (VInt limit) (VBool b)) as_json)
  /\ (forall days,
        1 <= days ->
        calls_once
          (obsidian_get_recent_changes respond cfg (Some (VInt limit)) (Some (VInt days)))
          (get_recent_changes (VInt limit) (VInt days)) as_json).
Proof.
  intros Hlimit. split.
  - intros period b Hperiod. now apply recent_periodic_notes_accepts.
  - intros days Hdays. now apply recent_changes_accepts.
Qed.

(** ** Responses *)

Lemma json_escape_char_length (c : ascii) :
  (1 <= String.length (json_escape_char c))%nat.
Proof. destruct c as [[] [] [] [] [] [] [] []]; vm_compute; lia. Qed.

Lemma json_escape_length (s : string) :
  (String.length s <= String.length (json_escape s))%nat.
Proof.
  induction s as [|c s IH]; [reflexivity|].
  cbn [json_escape]. rewrite length_append.
  pose proof (json_escape_char_length c). simpl. lia.
Qed.

Lemma json_dumps_str_length (s : string) :
  (String.length s + 2 <= String.length (json_dumps (VStr s)))%nat.
Proof.
  change (json_dumps (VStr s)) with (DQ +:+ json_escape s +:+ DQ).
  rewrite !length_append. pose proof (json_escape_length s).
  change (String.length DQ) with 1%nat. lia.
Qed.

(** A text never is its own JSON serialization. *)
Lemma json_dumps_str_not_raw (s : string) : json_dumps (VStr s) <> s.
Proof.
  intros H. pose proof (json_dumps_str_length s) as Hlen. rewrite H in Hlen. lia.
Qed.

(** C4 (as amended): the tools with list or structured results return the
    indented JSON of what the client returned (for the simple search, of the
    formatted results); [obsidian_get_file_contents] does the same with the
    file's content, so a text content comes back as a quoted, escaped JSON
    string and never as the raw text; [obsidian_get_periodic_note] returns
    what the client returned, untouched; the four tools with side effects
    return, once the client call has succeeded, a one-line confirmation that
    ends with the path they were given. *)
Theorem response_normalization :
  (calls_once (obsidian_list_files_in_vault respond cfg) list_files_in_vault as_json
   /\ (forall dirpath,
         calls_once (obsidian_list_files_in_dir respond cfg dirpath)
           (list_files_in_dir dirpath) as_json)
   /\ (forall query,
         calls_once (obsidian_complex_search respond cfg query) (search_json query) as_json)
   /\ (forall period n b,
         period ∈ valid_periods -> 1 <= n ->
         calls_once
           (obsidian_get_recent_periodic_notes respond cfg period
              (Some (VInt n)) (Some (VBool b)))
           (get_recent_periodic_notes period (VInt n) (VBool b)) as_json)
   /\ (forall n d,
         1 <= n -> 1 <= d ->
         calls_once
           (obsidian_get_recent_changes respond cfg (Some (VInt n)) (Some (VInt d)))
           (get_recent_changes (VInt n) (VInt d)) as_json)
   /\ (forall query context_length,
         calls_once (obsidian_simple_search respond cfg query context_length)
           (search query (default (VInt 100) context_length)) format_results)
   /\ (forall results text,
         format_results results = Return text ->
         exists shaped, text = VStr (json_dumps (VList shaped))))
  /\ ((forall filepath,
          calls_once (obsidian_get_file_contents respond cfg filepath)
            (get_file_contents filepath) as_json)
      /\ (forall text, as_json (VStr text) <> Return (VStr text)))
  /\ (forall period type,
         period ∈ valid_periods -> default "content" type ∈ valid_types ->
         calls_once (obsidian_get_periodic_note respond cfg period type)
           (get_periodic_note period (default "content" type)) Return)
  /\ (forall filepath,
         (forall content,
             calls_once (obsidian_append_content respond cfg filepath content)
               (append_content filepath content)
               (confirmation ("Successfully appended content to " +:+ filepath)))
         /\ (forall content,
               calls_once (obsidian_put_content respond cfg filepath content)
                 (put_content filepath content)
                 (confirmation ("Successfully uploaded content to " +:+ filepath)))
         /\ (forall operation target_type target content,
               calls_once
                 (obsidian_patch_content respond cfg filepath operation target_type
                    target content)
                 (patch_content filepath operation target_type target content)
                 (confirmation ("Successfully patched content in " +:+ filepath)))
         /\ calls_once (obsidian_delete_file respond cfg filepath (Some (VBool true)))
              (delete_file filepath)
              (confirmation ("Successfully deleted " +:+ filepath))).
Proof.
  split; [|split; [|split]].
  - repeat split.
    + apply (construct_invoke_then _ as_json).
    + intros dirpath. apply (construct_invoke_then _ as_json).
    + intros query. apply (construct_invoke_then _ as_json).
    + intros period n b Hperiod Hn. now apply recent_periodic_notes_accepts.
    + intros n d Hn Hd. now apply recent_changes_accepts.
    + intros query context_length. apply simple_search_passes_context_length.
    + intros results text. apply format_results_json.
  - split.
    + intros filepath. apply (construct_invoke_then _ as_json).
    + intros text [= H]. exact (json_dumps_str_not_raw text H).
  - intros period type Hperiod%py_in_elem_of Htype%py_in_elem_of.
    unfold obsidian_get_periodic_note. rewrite Hperiod, Htype.
    apply (construct_invoke_then _ Return).
  - intros filepath. repeat split.
    + intros content. apply (construct_invoke_then _ (confirmation _)).
    + intros content. apply (construct_invoke_then _ (confirmation _)).
    + intros operation target_type target content.
      apply (construct_invoke_then _ (confirmation _)).
    + apply (construct_invoke_then _ (confirmation _)).
Qed.

(** C9: when [OBSIDIAN_API_KEY] is unset or empty, loading the module
    raises [ValueError], so that no request is ever handled (no client is
    constructed, no call made); when [OBSIDIAN_HOST] is unset and the key is
    present, the host is the loopback address 127.0.0.1. *)
Theorem api_key_required_host_defaults (env : gmap string string) (cwd : string) :
  (env !! "OBSIDIAN_API_KEY" = None \/ env !! "OBSIDIAN_API_KEY" = Some EmptyString ->
     load_module env cwd
     = Raise (ValueError
         ("OBSIDIAN_API_KEY environment variable required. Working directory: " +:+ cwd))
     /\ forall r w,
          serve respond env cwd r w
          = (Raise (ValueError
               ("OBSIDIAN_API_KEY environment variable required. Working directory: "
                  +:+ cwd)),
             {| world := w; trace := [] |}))
  /\ (env !! "OBSIDIAN_HOST" = None ->
      forall key,
        env !! "OBSIDIAN_API_KEY" = Some key -> key <> EmptyString ->
        load_module env cwd = Return {| api_key := key; obsidian_host := "127.0.0.1" |}).
Proof.
  split.
  - intros Hkey.
    assert (Hload : load_module env cwd
              = Raise (ValueError
                  ("OBSIDIAN_API_KEY environment variable required. Working directory: "
                     +:+ cwd))).
    { unfold load_module, getenv. destruct Hkey as [-> | ->]; reflexivity. }
    split; [exact Hload|]. intros r w. unfold serve. rewrite Hload. reflexivity.
  - intros Hhost key Hkey Hne.
    unfold load_module, getenv, getenv_default. rewrite Hkey, Hhost.
    cbn [from_option default id truthy py_str].
    destruct key as [|c key]; [congruence|]. reflexivity.
Qed.

End Properties.

(** ** The batch read *)

Lemma join_nil_cons (x : string) (rest : list string) :
  join EmptyString (x :: rest) = x +:+ join EmptyString rest.
Proof.
  destruct rest as [|y rest]; [|reflexivity].
  cbn [join]. now rewrite append_nil_r.
Qed.

Lemma occurs_in_join (x : string) (parts : list string) :
  x ∈ parts -> occurs_in x (join EmptyString parts).
Proof.
  induction parts as [|p parts IH]; intros Hx.
  - now apply elem_of_nil in Hx.
  - rewrite join_nil_cons. apply elem_of_cons in Hx as [-> | Hx].
    + apply occurs_in_append_l, occurs_in_refl.
    + now apply occurs_in_append_r, IH.
Qed.

Section BatchProperties.

Context {World : Type}.
Variable respond : client -> call -> World -> outcome value * World.
Variable cfg : config.
Variable header : string -> string.
Variable error_marker : string -> string.

(** The files of a vault, and the client's batch read on them. *)
Variable files : World -> gmap string string.
Hypothesis client_batch_read :
  forall api filepaths w,
    respond api (get_batch_file_contents filepaths) w
    = (Return (VStr (getBatchFileContents header error_marker (files w) filepaths)), w).

Lemma batch_read_returns_blob (filepaths : list string) (w : World) :
  run (obsidian_batch_get_file_contents respond cfg filepaths) w
  = (Return (VStr (getBatchFileContents header error_marker (files w) filepaths)),
     {| world := w;
        trace := [Construct (the_client cfg);
                  Invoke (the_client cfg) (get_batch_file_contents filepaths)] |}).
Proof.
  assert (H : calls_once respond cfg
                (obsidian_batch_get_file_contents respond cfg filepaths)
                (get_batch_file_contents filepaths) Return)
    by apply (construct_invoke_then respond cfg _ Return).
  rewrite (H w), client_batch_read. reflexivity.
Qed.

Lemma blob_holds_entry (fs : gmap string string) (filepaths : list string) (p : string) :
  p ∈ filepaths ->
  occurs_in (batch_entry header error_marker fs p)
            (getBatchFileContents header error_marker fs filepaths).
Proof.
  intros Hp. apply occurs_in_join.
  change (map ?f ?l) with (f <$> l). apply list_elem_of_fmap. now exists p.
Qed.

(** C8: with the client's batch read as the specification describes it,
    [obsidian_batch_get_file_contents] on [a; b], where [a] exists and [b]
    does not, returns (and does not raise) one text that holds the content
    of [a] and the error marker of [b]; and on any list of paths it returns
    one text that holds the content of every file that exists and the error
    marker of every file that does not. *)
Theorem batch_read_marks_missing_files :
  (forall a b content w,
      files w !! a = Some content -> files w !! b = None ->
      exists blob,
        run (obsidian_batch_get_file_contents respond cfg [a; b]) w
        = (Return (VStr blob),
           {| world := w;
              trace := [Construct (the_client cfg);
                        Invoke (the_client cfg) (get_batch_file_contents [a; b])] |})
        /\ occurs_in content blob
        /\ occurs_in (error_marker b) blob)
  /\ (forall filepaths w,
        exists blob,
          (run (obsidian_batch_get_file_contents respond cfg filepaths) w).1
          = Return (VStr blob)
          /\ forall p,
               p ∈ filepaths ->
               match files w !! p with
               | Some content => occurs_in content blob
               | None => occurs_in (error_marker p) blob
               end).
Proof.
  assert (Hentry : forall fs filepaths p,
             p ∈ filepaths ->
             match fs !! p with
             | Some content =>
               occurs_in content (getBatchFileContents header error_marker fs filepaths)
             | None =>
               occurs_in (error_marker p)
                         (getBatchFileContents header error_marker fs filepaths)
             end).
  { intros fs filepaths p Hp.
    pose proof (blob_holds_entry fs filepaths p Hp) as (before & after & Hblob).
    unfold batch_entry in Hblob. destruct (fs !! p) as [content|].
    - exists (before +:+ header p), after. now rewrite Hblob, !append_assoc.
    - now exists before, after. }
  split.
  - intros a b content w Ha Hb. eexists. split; [apply batch_read_returns_blob|].
    split.
    + pose proof (Hentry (files w) [a; b] a) as H. rewrite Ha in H.
      apply H. apply elem_of_cons. now left.
    + pose proof (Hentry (files w) [a; b] b) as H. rewrite Hb in H.
      apply H. apply elem_of_cons. right. apply elem_of_cons. now left.
  - intros filepaths w. eexists. split.
    + rewrite batch_read_returns_blob. reflexivity.
    + intros p Hp. now apply Hentry.
Qed.

End BatchProperties.

(** ** The properties on the vault in memory *)

Lemma delete_file_requires_confirm_witness :
  (rejects (obsidian_delete_file demo_vault demo_cfg "notes/a.md" None)
     (RuntimeError "confirm must be set to true to delete a file")
   /\ forall w,
        deletions (trace (run (obsidian_delete_file demo_vault demo_cfg "notes/a.md" None)
                            w).2) = 0%nat)
  /\ deletions
       (trace (run (obsidian_delete_file demo_vault demo_cfg "notes/a.md"
                      (Some (VBool true))) demo_files).2) = 1%nat.
Proof.
  split.
  - apply (proj1 (delete_file_requires_confirm demo_vault demo_cfg "notes/a.md") None).
    reflexivity.
  - apply (proj2 (delete_file_requires_confirm demo_vault demo_cfg "notes/a.md")
             (Some (VBool true)) demo_files).
    reflexivity.
Defined.

(** An operation that the docstring does not list goes to the vault: the
    handler raises nothing, constructs a client and calls it. *)
Lemma patch_content_accepts_unlisted_operation :
  ("delete" ∉ documented_operations)
  /\ ~ (exists e,
          rejects (obsidian_patch_content demo_vault demo_cfg
                     "notes/a.md" "delete" "heading" "Intro" "text") e)
  /\ run (obsidian_patch_content demo_vault demo_cfg
            "notes/a.md" "delete" "heading" "Intro" "text") demo_files
     = (Return (VStr "Successfully patched content in notes/a.md"),
        {| world := demo_files;
           trace := [Construct (the_client demo_cfg);
                     Invoke (the_client demo_cfg)
                       (patch_content "notes/a.md" "delete" "heading" "Intro" "text")] |}).
Proof.
  split; [apply py_in_not_elem_of; reflexivity|]. split; [|reflexivity].
  intros (e & He). specialize (He demo_files). discriminate He.
Qed.

Lemma enum_parameters_are_validated_witness :
  rejects (obsidian_get_periodic_note demo_vault demo_cfg "hourly" None)
    (RuntimeError
       "Invalid period: hourly. Must be one of: daily, weekly, monthly, quarterly, yearly")
  /\ rejects (obsidian_get_periodic_note demo_vault demo_cfg "daily" (Some "summary"))
       (RuntimeError "Invalid type: summary. Must be one of: content, metadata").
Proof.
  split.
  - apply (proj1 (enum_parameters_are_validated demo_vault demo_cfg "hourly")).
    apply py_in_not_elem_of. reflexivity.
  - apply (proj2 (enum_parameters_are_validated demo_vault demo_cfg "daily")).
    + apply py_in_elem_of. reflexivity.
    + apply py_in_not_elem_of. reflexivity.
Defined.

(** A context length of zero goes to the vault: the handler raises nothing
    of its own, constructs a client and calls its search. *)
Lemma simple_search_accepts_zero_context_length :
  zero_or_negative (VInt 0)
  /\ ~ (exists e,
          rejects (obsidian_simple_search demo_vault demo_cfg "alpha" (Some (VInt 0))) e)
  /\ trace (run (obsidian_simple_search demo_vault demo_cfg "alpha" (Some (VInt 0)))
              demo_files).2
     = [Construct (the_client demo_cfg);
        Invoke (the_client demo_cfg) (search "alpha" (VInt 0))].
Proof.
  split.
  { exists 0. split; [reflexivity | lia]. }
  split; [|reflexivity].
  intros (e & He). specialize (He demo_files). discriminate He.
Qed.

Lemma count_parameters_are_validated_witness :
  rejects (obsidian_get_recent_changes demo_vault demo_cfg (Some (VInt 0)) None)
    (RuntimeError "Invalid limit: 0. Must be a positive integer")
  /\ rejects (obsidian_get_recent_changes demo_vault demo_cfg (Some (VInt 3))
                (Some (VFloat "1.5")))
       (RuntimeError "Invalid days: 1.5. Must be a positive integer")
  /\ calls_once demo_vault demo_cfg
       (obsidian_get_recent_periodic_notes demo_vault demo_cfg "daily"
          (Some (VInt 3)) (Some (VBool false)))
       (get_recent_periodic_notes "daily" (VInt 3) (VBool false)) as_json
  /\ calls_once demo_vault demo_cfg
       (obsidian_get_recent_changes demo_vault demo_cfg (Some (VInt 3)) (Some (VInt 30)))
       (get_recent_changes (VInt 3) (VInt 30)) as_json
  /\ calls_once demo_vault demo_cfg
       (obsidian_simple_search demo_vault demo_cfg "alpha" (Some (VInt 3)))
       (search "alpha" (VInt 3)) format_results.
Proof.
  pose proof (count_parameters_are_validated demo_vault demo_cfg) as (Hbad & Hgood).
  split; [|split; [|split; [|split]]].
  - apply (Hbad (VInt 0)). left. exists 0. split; [reflexivity | lia].
  - apply (Hbad (VFloat "1.5")); [right; reflexivity | lia].
  - apply (Hgood 3); [lia | apply py_in_elem_of; reflexivity].
  - apply (Hgood 3); lia.
  - apply (Hgood 3). lia.
Defined.

(** The file's text comes back as a JSON string literal, not as the text. *)
Lemma get_file_contents_returns_json_not_raw_text :
  demo_files !! "notes/a.md" = Some "alpha beta"
  /\ (run (obsidian_get_file_contents demo_vault demo_cfg "notes/a.md") demo_files).1
     = Return (VStr (DQ +:+ "alpha beta" +:+ DQ))
  /\ (run (obsidian_get_file_contents demo_vault demo_cfg "notes/a.md") demo_files).1
     <> Return (VStr "alpha beta").
Proof.
  split; [reflexivity|]. split; [reflexivity|]. discriminate.
Qed.

Lemma response_normalization_witness :
  calls_once demo_vault demo_cfg
    (obsidian_get_recent_periodic_notes demo_vault demo_cfg "weekly"
       (Some (VInt 2)) (Some (VBool true)))
    (get_recent_periodic_notes "weekly" (VInt 2) (VBool true)) as_json
  /\ calls_once demo_vault demo_cfg
       (obsidian_get_recent_changes demo_vault demo_cfg (Some (VInt 10)) (Some (VInt 90)))
       (get_recent_changes (VInt 10) (VInt 90)) as_json
  /\ (exists shaped, VStr "[]" = VStr (json_dumps (VList shaped)))
  /\ calls_once demo_vault demo_cfg
       (obsidian_get_periodic_note demo_vault demo_cfg "daily" None)
       (get_periodic_note "daily" "content") Return.
Proof.
  pose proof (response_normalization demo_vault demo_cfg)
    as ((_ & _ & _ & Hnotes & Hchanges & _ & Hsearch) & _ & Hperiodic & _).
  split; [|split; [|split]].
  - apply Hnotes; [apply py_in_elem_of; reflexivity | lia].
  - apply Hchanges; lia.
  - apply (Hsearch (VList [])). reflexivity.
  - apply (Hperiodic "daily" None); apply py_in_elem_of; reflexivity.
Defined.

Lemma simple_search_formats_results_witness :
  (run (obsidian_simple_search demo_vault demo_cfg "alpha" None) demo_files).1
  = Return (VStr (json_dumps (VList (map result_shape demo_hits)))).
Proof.
  apply (simple_search_formats_results demo_vault demo_cfg "alpha" None demo_hits demo_files);
    reflexivity.
Defined.

(** The text "false" is truthy: the gate opens and the file is deleted. *)
Lemma delete_file_accepts_truthy_text :
  non_boolean (VStr "false")
  /\ ~ (exists e,
          rejects (obsidian_delete_file demo_vault demo_cfg "notes/a.md"
                     (Some (VStr "false"))) e)
  /\ (run (obsidian_delete_file demo_vault demo_cfg "notes/a.md" (Some (VStr "false")))
        demo_files).1
     = Return (VStr "Successfully deleted notes/a.md")
  /\ deletions
       (trace (run (obsidian_delete_file demo_vault demo_cfg "notes/a.md"
                      (Some (VStr "false"))) demo_files).2) = 1%nat.
Proof.
  split; [reflexivity|]. split; [|split; reflexivity].
  intros (e & He). specialize (He demo_files). discriminate He.
Qed.

Lemma boolean_parameters_are_validated_witness :
  rejects (obsidian_get_recent_periodic_notes demo_vault demo_cfg "daily"
             (Some (VInt 3)) (Some VNone))
    (RuntimeError "Invalid include_content: None. Must be a boolean")
  /\ rejects (obsidian_delete_file demo_vault demo_cfg "notes/a.md" (Some VNone))
       (RuntimeError "confirm must be set to true to delete a file").
Proof.
  pose proof (boolean_parameters_are_validated demo_vault demo_cfg VNone)
    as (Htyped & Hfalsy).
  split.
  - apply (proj2 (Htyped eq_refl) "daily" 3); [apply py_in_elem_of; reflexivity | lia].
  - apply (Hfalsy eq_refl).
Defined.

Lemma batch_read_marks_missing_files_witness :
  exists blob,
    run (obsidian_batch_get_file_contents demo_vault demo_cfg
           ["notes/a.md"; "notes/missing.md"]) demo_files
    = (Return (VStr blob),
       {| world := demo_files;
          trace := [Construct (the_client demo_cfg);
                    Invoke (the_client demo_cfg)
                      (get_batch_file_contents ["notes/a.md"; "notes/missing.md"])] |})
    /\ occurs_in "alpha beta" blob
    /\ occurs_in (demo_error_marker "notes/missing.md") blob.
Proof.
  apply (proj1 (batch_read_marks_missing_files demo_vault demo_cfg
                  demo_header demo_error_marker (fun files => files)
                  (fun api filepaths w => eq_refl))
           "notes/a.md" "notes/missing.md" "alpha beta" demo_files);
    reflexivity.
Defined.

Lemma api_key_required_host_defaults_witness :
  load_module ∅ "/srv/vault"
  = Raise (ValueError
      "OBSIDIAN_API_KEY environment variable required. Working directory: /srv/vault")
  /\ load_module demo_env "/srv/vault"
     = Return {| api_key := "secret"; obsidian_host := "127.0.0.1" |}.
Proof.
  split.
  - apply (proj1 (api_key_required_host_defaults demo_vault ∅ "/srv/vault")).
    left. reflexivity.
  - apply (proj2 (api_key_required_host_defaults demo_vault demo_env "/srv/vault"));
      [reflexivity | reflexivity | discriminate].
Defined.

Lemma limit_has_no_upper_bound_witness :
  calls_once demo_vault demo_cfg
    (obsidian_get_recent_periodic_notes demo_vault demo_cfg "daily"
       (Some (VInt 1000)) (Some (VBool false)))
    (get_recent_periodic_notes "daily" (VInt 1000) (VBool false)) as_json
  /\ calls_once demo_vault demo_cfg
       (obsidian_get_recent_changes demo_vault demo_cfg (Some (VInt 1000)) (Some (VInt 90)))
       (get_recent_changes (VInt 1000) (VInt 90)) as_json.
Proof.
  pose proof (limit_has_no_upper_bound demo_vault demo_cfg 1000 ltac:(lia))
    as (Hnotes & Hchanges).
  split.
  - apply Hnotes. apply py_in_elem_of. reflexivity.
  - apply Hchanges. lia.
Defined.

(** * Properties of the registry as a whole *)

(** Runs a handler symbolically: every guard is decided both ways, and the
    client's answer to the one call is split into a result and an
    exception. *)
Ltac decide_guards :=
  repeat match goal with
         | |- context [if ?b then _ else _] => destruct b eqn:?
         end.

Ltac unfold_tools :=
  unfold obsidian_list_files_in_vault, obsidian_list_files_in_dir,
    obsidian_get_file_contents, obsidian_simple_search, obsidian_append_content,
    obsidian_patch_content, obsidian_put_content, obsidian_delete_file,
    obsidian_complex_search, obsidian_batch_get_file_contents,
    obsidian_get_periodic_note, obsidian_get_recent_periodic_notes,
    obsidian_get_recent_changes.

Ltac exec :=
  cbv beta iota zeta
      delta [run bind Obsidian invoke emit ret lift raise world trace app negb].

Section Registry.

Context {World : Type}.
Variable respond : client -> call -> World -> outcome value * World.
Variable cfg : config.

(** Every tool call either stops at a guard, or constructs one client and
    makes one call on it. *)
Lemma handle_cases (r : request) (w : World) :
  (exists msg,
      run (handle respond cfg r) w
      = (Raise (RuntimeError msg), {| world := w; trace := [] |}))
  \/ (exists c post,
        run (handle respond cfg r) w
        = (obind (respond (the_client cfg) c w).1 post,
           {| world := (respond (the_client cfg) c w).2;
              trace := [Construct (the_client cfg); Invoke (the_client cfg) c] |})).
Proof.
  destruct r; cbn [handle]; unfold_tools; decide_guards;
    try (left; eexists; reflexivity);
    right; eexists _, _;
    (apply (construct_invoke_then respond cfg _ as_json)
     || apply (construct_invoke_then respond cfg _ format_results)
     || apply (construct_invoke_then respond cfg _ (confirmation _))
     || apply (construct_invoke_then respond cfg _ Return)).
Qed.

Lemma invocations_of_call (api : client) (c : call) :
  invocations [Construct api; Invoke api c] = 1%nat.
Proof. reflexivity. Qed.

Lemma constructions_of_call (api : client) (c : call) :
  constructions [Construct api; Invoke api c] = 1%nat.
Proof. reflexivity. Qed.

(** X1: whatever the tool and its arguments, a tool call invokes the client
    at most once and constructs a client exactly when it invokes it; a call
    that invokes nothing has raised a [RuntimeError] and left the vault as
    it was, and a call that invokes something leaves the vault as that one
    client call left it. *)
Theorem tool_call_invokes_client_at_most_once (r : request) (w : World) :
  let result := run (handle respond cfg r) w in
  (invocations (trace result.2) <= 1)%nat
  /\ constructions (trace result.2) = invocations (trace result.2)
  /\ (invocations (trace result.2) = 0%nat ->
      world result.2 = w /\ exists msg, result.1 = Raise (RuntimeError msg))
  /\ (invocations (trace result.2) = 1%nat ->
      exists c,
        trace result.2 = [Construct (the_client cfg); Invoke (the_client cfg) c]
        /\ world result.2 = (respond (the_client cfg) c w).2).
Proof.
  cbn zeta. destruct (handle_cases r w) as [(msg & ->) | (c & post & ->)].
  - cbn [fst snd trace world].
    change (invocations []) with 0%nat. change (constructions []) with 0%nat.
    repeat split; try lia; try discriminate. now exists msg.
  - cbn [fst snd trace world]. rewrite invocations_of_call, constructions_of_call.
    repeat split; try lia; try discriminate. intros _. now exists c.
Qed.

(** X3: no tool catches or rewrites what the client raises: when the one
    client call of a tool call raises, the tool call raises that same
    exception. *)
Theorem client_exception_propagates (r : request) (w : World) (c : call) (e : exn) :
  Invoke (the_client cfg) c ∈ trace (run (handle respond cfg r) w).2 ->
  (respond (the_client cfg) c w).1 = Raise e ->
  (run (handle respond cfg r) w).1 = Raise e.
Proof.
  destruct (handle_cases r w) as [(msg & ->) | (c' & post & ->)]; cbn [fst snd trace].
  - intros H. now apply elem_of_nil in H.
  - intros H Hraise.
    apply elem_of_cons in H as [H | H]; [discriminate H|].
    apply elem_of_cons in H as [H | H]; [|now apply elem_of_nil in H].
    injection H as <-. rewrite Hraise. reflexivity.
Qed.

(** X2: the client's delete operation is invoked by [obsidian_delete_file]
    alone, only when [confirm] is truthy, then exactly once and on the path
    given to the tool. *)
Theorem only_delete_file_deletes (r : request) (w : World) :
  deletions (trace (run (handle respond cfg r) w).2)
  = match r with
    | req_delete_file _ confirm =>
      if truthy (default (VBool false) confirm) then 1%nat else 0%nat
    | _ => 0%nat
    end
  /\ forall api filepath,
       Invoke api (delete_file filepath) ∈ trace (run (handle respond cfg r) w).2 ->
       exists confirm, r = req_delete_file filepath confirm.
Proof.
  destruct r; cbn [handle]; unfold_tools.
  8: { destruct (truthy (default (VBool false) confirm)) eqn:Hconfirm; cbn [negb]; exec.
       - destruct (respond _ _ w) as [[?|?] ?]; cbn [snd trace];
           (split; [reflexivity|]); intros api p Hin;
           apply elem_of_cons in Hin as [Hin | Hin]; try discriminate Hin;
           apply elem_of_cons in Hin as [Hin | Hin];
           try (now apply elem_of_nil in Hin);
           injection Hin as _ <-; now exists confirm.
       - cbn [snd trace]. split; [reflexivity|]. intros api p Hin.
         now apply elem_of_nil in Hin. }
  all: decide_guards; exec;
    repeat match goal with
           | |- context [respond ?a ?c ?w] => destruct (respond a c w) as [[?|?] ?]
           end;
    cbn [snd trace];
    (split; [reflexivity|]); intros api p Hin;
    repeat (apply elem_of_cons in Hin as [Hin | Hin]; try discriminate Hin);
    now apply elem_of_nil in Hin.
Qed.

(** X4: a tool call that returns, returns a text, with two exceptions:
    [obsidian_get_periodic_note] and [obsidian_batch_get_file_contents]
    return the very object the client returned, of whatever type. *)
Theorem tools_return_text (r : request) (w : World) (v : value) :
  (run (handle respond cfg r) w).1 = Return v ->
  match r with
  | req_get_periodic_note period type =>
    (respond (the_client cfg) (get_periodic_note period (default "content" type)) w).1
    = Return v
  | req_batch_get_file_contents filepaths =>
    (respond (the_client cfg) (get_batch_file_contents filepaths) w).1 = Return v
  | _ => exists text, v = VStr text
  end.
Proof.
  destruct r; cbn [handle]; unfold_tools; decide_guards; exec;
    try discriminate;
    repeat match goal with
           | |- context [respond ?a ?c ?w] =>
             change a with (the_client cfg); destruct (respond (the_client cfg) c w) as [[?|?] ?]
           end;
    cbn [fst]; try discriminate; try (intros [= <-]; eauto; fail).
  intros Hformat. destruct (format_results_json _ _ Hformat) as (shaped & ->). eauto.
Qed.

End Registry.

(** X5: which client call a tool call makes, if any, is fixed by the tool
    and its arguments alone: it is the same on every vault and whatever the
    client answers. *)
Theorem client_call_independent_of_vault
    {World1 World2 : Type}
    (respond1 : client -> call -> World1 -> outcome value * World1)
    (respond2 : client -> call -> World2 -> outcome value * World2)
    (cfg : config) (r : request) (w1 : World1) (w2 : World2) :
  trace (run (handle respond1 cfg r) w1).2 = trace (run (handle respond2 cfg r) w2).2.
Proof.
  destruct (handle_cases respond1 cfg r w1) as [(msg1 & H1) | (c1 & post1 & H1)];
    destruct (handle_cases respond2 cfg r w2) as [(msg2 & H2) | (c2 & post2 & H2)];
    rewrite H1, H2; cbn [snd trace]; [reflexivity| | |];
    revert H1 H2;
    destruct r; cbn [handle]; unfold_tools; decide_guards; exec;
    repeat match goal with
           | |- context [respond1 ?a ?c ?w] => destruct (respond1 a c w) as [[?|?] ?]
           | |- context [respond2 ?a ?c ?w] => destruct (respond2 a c w) as [[?|?] ?]
           end;
    intros H1 H2; congruence.
Qed.

(** ** Module load *)

Lemma load_module_returns (env : gmap string string) (cwd : string) (cfg : config) :
  load_module env cwd = Return cfg ->
  exists key,
    env !! "OBSIDIAN_API_KEY" = Some key
    /\ key <> EmptyString
    /\ api_key cfg = key
    /\ obsidian_host cfg
       = match env !! "OBSIDIAN_HOST" with
         | Some host => host
         | None => "127.0.0.1"
         end.
Proof.
  unfold load_module, getenv, getenv_default.
  destruct (env !! "OBSIDIAN_API_KEY") as [key|] eqn:Hkey; cbn; [|discriminate].
  destruct key as [|c key]; cbn; [discriminate|].
  intros [= <-]. exists (String c key). cbn.
  split; [reflexivity|]. split; [discriminate|]. split; [reflexivity|].
  now destruct (env !! "OBSIDIAN_HOST").
Qed.

(** X6: loading the module succeeds exactly when [OBSIDIAN_API_KEY] is set
    to a non-empty text; the key is then taken as it is, and so is
    [OBSIDIAN_HOST] when it is set, even to the empty text: the default
    127.0.0.1 stands in for an unset host only. *)
Theorem load_module_succeeds_iff (env : gmap string string) (cwd : string) (cfg : config) :
  load_module env cwd = Return cfg
  <-> exists key,
        env !! "OBSIDIAN_API_KEY" = Some key
        /\ key <> EmptyString
        /\ api_key cfg = key
        /\ obsidian_host cfg
           = match env !! "OBSIDIAN_HOST" with
             | Some host => host
             | None => "127.0.0.1"
             end.
Proof.
  split; [apply load_module_returns|].
  unfold load_module, getenv, getenv_default.
  intros (key & -> & Hne & Hkey & Hhost). destruct key as [|c key]; [congruence|].
  cbn. destruct cfg as [k h]. cbn in Hkey, Hhost. subst k h.
  now destruct (env !! "OBSIDIAN_HOST").
Qed.

Section Served.

Context {World : Type}.
Variable respond : client -> call -> World -> outcome value * World.

(** X7: every client that a served request constructs or calls carries the
    API key and the host of the environment the module was loaded in. *)
Theorem served_clients_use_environment
    (env : gmap string string) (cwd : string) (r : request) (w : World) (e : event) :
  e ∈ trace (serve respond env cwd r w).2 ->
  exists key,
    env !! "OBSIDIAN_API_KEY" = Some key
    /\ key <> EmptyString
    /\ event_client e
       = {| client_api_key := key;
            client_host := match env !! "OBSIDIAN_HOST" with
                           | Some host => host
                           | None => "127.0.0.1"
                           end |}.
Proof.
  unfold serve. destruct (load_module env cwd) as [cfg|err] eqn:Hload.
  - apply load_module_returns in Hload as (key & Hkey & Hne & Hk & Hh).
    destruct (handle_cases respond cfg r w) as [(msg & ->) | (c & post & ->)];
      cbn [snd trace]; intros He.
    + now apply elem_of_nil in He.
    + exists key. split; [exact Hkey|]. split; [exact Hne|].
      assert (event_client e = the_client cfg) as ->.
      { apply elem_of_cons in He as [-> | He]; [reflexivity|].
        apply elem_of_cons in He as [-> | He]; [reflexivity|].
        now apply elem_of_nil in He. }
      unfold the_client. now rewrite Hk, Hh.
  - cbn [snd trace]. intros He. now apply elem_of_nil in He.
Qed.

End Served.

(** ** The guards, case by case *)

Lemma count_guard_decides (v : value) :
  negb (isinstance_int v) || (int_value v <? 1) = negb (passes_count_guard v).
Proof.
  destruct v as [|[]|n| | | |]; try reflexivity.
  cbn [isinstance_int int_value passes_count_guard negb orb]. apply Z.ltb_antisym.
Qed.

Section Decisions.

Context {World : Type}.
Variable respond : client -> call -> World -> outcome value * World.
Variable cfg : config.


(** X9: [obsidian_get_recent_changes] tests limit before days, each with
    the guard that lets through the integers from 1 on and [True]; when both
    pass, the client is called with the two values as they were given. *)
Theorem recent_changes_decision (limit days : option value) :
  let l := default (VInt 10) limit in
  let d := default (VInt 90) days in
  let h := obsidian_get_recent_changes respond cfg limit days in
  (passes_count_guard l = false ->
     rejects h (RuntimeError ("Invalid limit: " +:+ py_str l
                                +:+ ". Must be a positive integer")))
  /\ (passes_count_guard l = true -> passes_count_guard d = false ->
      rejects h (RuntimeError ("Invalid days: " +:+ py_str d
                                 +:+ ". Must be a positive integer")))
  /\ (passes_count_guard l = true -> passes_count_guard d = true ->
      calls_once respond cfg h (get_recent_changes l d) as_json).
Proof.
  intros l d h. subst h. unfold obsidian_get_recent_changes. fold l d.
  rewrite (count_guard_decides l), (count_guard_decides d).
  split; [|split].
  - intros ->. intros w. reflexivity.
  - intros -> ->. intros w. reflexivity.
  - intros -> ->. cbn [negb]. apply (construct_invoke_then respond cfg _ as_json).
Qed.

End Decisions.

(** ** When the search formatting fails *)

Lemma format_match_fails (m : value) (acc : list value) :
  is_raw_match m = false ->
  exists msg, format_match m acc = Raise (AttributeError msg).
Proof.
  intros Hm. unfold format_match, py_get.
  destruct m as [| | | | | |entries]; try (eexists; reflexivity).
  cbn [obind]. simpl in Hm.
  destruct (lookup_entry "match" entries) as [[| | | | | |position]|];
    try discriminate; cbn [default from_option id obind]; eexists; reflexivity.
Qed.

Lemma format_matches_fail (ms acc : list value) :
  forallb is_raw_match ms = false ->
  exists msg, for_in ms format_match acc = Raise (AttributeError msg).
Proof.
  revert acc. induction ms as [|m rest IH]; intros acc Hms; [discriminate|].
  cbn [forallb] in Hms. cbn [for_in].
  destruct (is_raw_match m) eqn:Hm.
  - rewrite (format_match_shape m acc Hm). cbn [obind]. now apply IH.
  - destruct (format_match_fails m acc Hm) as (msg & ->). now exists msg.
Qed.

Lemma chars_cons (c : ascii) (s : string) :
  chars (String c s) = VStr (String c EmptyString) :: chars s.
Proof. reflexivity. Qed.

Lemma format_result_returns (r : value) (acc : list value) :
  formattable_result r = true ->
  format_result r acc = Return (acc ++ [result_shape r]).
Proof.
  destruct r as [| | | | |?|entries]; try discriminate. intros Hr.
  unfold format_result, result_shape, field, py_get. simpl in Hr.
  destruct (lookup_entry "matches" entries) as [[| | | |s|ms|d]|];
    try discriminate; cbn [default from_option id obind py_iter items_of].
  - apply String.eqb_eq in Hr as ->. reflexivity.
  - rewrite (format_matches_shape ms [] Hr). reflexivity.
  - destruct d; [reflexivity | discriminate].
  - reflexivity.
Qed.

Lemma format_result_fails (r : value) (acc : list value) :
  formattable_result r = false ->
  exists msg,
    format_result r acc = Raise (TypeError msg)
    \/ format_result r acc = Raise (AttributeError msg).
Proof.
  intros Hr. unfold format_result, py_get.
  destruct r as [| | | | | |entries]; try (eexists; right; reflexivity).
  cbn [obind]. simpl in Hr.
  destruct (lookup_entry "matches" entries) as [[| | | |s|ms|d]|];
    try discriminate; cbn [default from_option id obind py_iter];
    try (eexists; left; reflexivity).
  - destruct s as [|c s]; [discriminate|]. rewrite chars_cons. cbn [for_in].
    eexists. right. reflexivity.
  - destruct (format_matches_fail ms [] Hr) as (msg & ->). exists msg. now right.
  - destruct d as [|[k x] d]; [discriminate|]. cbn [map fst for_in].
    eexists. right. reflexivity.
Qed.

Lemma format_all_returns (rs acc : list value) :
  forallb formattable_result rs = true ->
  for_in rs format_result acc = Return (acc ++ map result_shape rs).
Proof.
  revert acc. induction rs as [|r rest IH]; intros acc Hrs.
  - cbn. now rewrite app_nil_r.
  - cbn [forallb] in Hrs. apply andb_true_iff in Hrs as [Hr Hrest].
    cbn [for_in map]. rewrite (format_result_returns r acc Hr). cbn [obind].
    rewrite (IH _ Hrest), <- app_assoc. reflexivity.
Qed.

Lemma format_all_fails (rs acc : list value) :
  forallb formattable_result rs = false ->
  exists msg,
    for_in rs format_result acc = Raise (TypeError msg)
    \/ for_in rs format_result acc = Raise (AttributeError msg).
Proof.
  revert acc. induction rs as [|r rest IH]; intros acc Hrs; [discriminate|].
  cbn [forallb] in Hrs. cbn [for_in].
  destruct (formattable_result r) eqn:Hr.
  - rewrite (format_result_returns r acc Hr). cbn [obind]. now apply IH.
  - destruct (format_result_fails r acc Hr) as (msg & [-> | ->]); exists msg; auto.
Qed.

(** X10: the formatting of [obsidian_simple_search] runs to its end exactly
    on the answers described by [formattable_results]: a list of records
    whose matches are absent, a list of raw matches, or empty (and, as
    answers that iterate over nothing, the empty str and the empty dict).
    It then returns the JSON of one shaped record per result.  On every
    other answer it raises [TypeError] (something is not iterable) or
    [AttributeError] (something iterated over is not a record). *)
Theorem format_results_decision (results : value) :
  (formattable_results results = true ->
     format_results results
     = Return (VStr (json_dumps (VList (map result_shape (items_of results))))))
  /\ (formattable_results results = false ->
      exists msg,
        format_results results = Raise (TypeError msg)
        \/ format_results results = Raise (AttributeError msg)).
Proof.
  unfold format_results. split; intros Hres.
  - destruct results as [| | | |s|rs|d]; try discriminate;
      cbn [py_iter obind items_of].
    + apply String.eqb_eq in Hres as ->. reflexivity.
    + rewrite (format_all_returns rs [] Hres). reflexivity.
    + destruct d; [reflexivity | discriminate].
  - destruct results as [| | | |s|rs|d]; cbn [py_iter obind];
      try (eexists; left; reflexivity).
    + destruct s as [|c s]; [discriminate|]. rewrite chars_cons. cbn [for_in].
      eexists. right. reflexivity.
    + destruct (format_all_fails rs [] Hres) as (msg & [-> | ->]); exists msg; auto.
    + destruct d as [|[k x] d]; [discriminate|]. cbn [map fst for_in].
      eexists. right. reflexivity.
Qed.

(** ** The JSON string literal loses nothing *)

Lemma json_unescape_char (c : ascii) (rest : string) :
  json_unescape (json_escape_char c +:+ rest) = String c <$> json_unescape rest.
Proof. destruct c as [[] [] [] [] [] [] [] []]; reflexivity. Qed.

Lemma json_unescape_escape (s rest : string) :
  json_unescape (json_escape s +:+ rest) = (fun t => s +:+ t) <$> json_unescape rest.
Proof.
  induction s as [|c s IH].
  - cbn [json_escape]. rewrite append_nil_l. now destruct (json_unescape rest).
  - cbn [json_escape]. rewrite append_assoc, json_unescape_char, IH.
    now destruct (json_unescape rest).
Qed.

Lemma append_inj_r (a b c : string) : a +:+ c = b +:+ c -> a = b.
Proof.
  revert b. induction a as [|x a IH]; intros [|y b] H.
  - reflexivity.
  - apply (f_equal String.length) in H. rewrite append_nil_l, length_append in H.
    simpl in H. lia.
  - apply (f_equal String.length) in H. rewrite append_nil_l, length_append in H.
    simpl in H. lia.
  - rewrite !append_cons in H. injection H as -> H. f_equal. now apply IH.
Qed.

Lemma json_dumps_str_inj (s1 s2 : string) :
  json_dumps (VStr s1) = json_dumps (VStr s2) -> s1 = s2.
Proof.
  change (json_dumps (VStr s1)) with (DQ +:+ json_escape s1 +:+ DQ).
  change (json_dumps (VStr s2)) with (DQ +:+ json_escape s2 +:+ DQ).
  intros H.
  change (String (ascii_of_nat 34) (json_escape s1 +:+ DQ)
          = String (ascii_of_nat 34) (json_escape s2 +:+ DQ)) in H.
  injection H as H.
  apply (f_equal json_unescape) in H. rewrite !json_unescape_escape in H.
  change (json_unescape DQ) with (Some DQ) in H. cbn in H.
  injection H as H. now apply append_inj_r in H.
Qed.

Section FileContents.

Context {World : Type}.
Variable respond : client -> call -> World -> outcome value * World.
Variable cfg : config.

(** X11: [obsidian_get_file_contents] keeps texts apart: when the client
    returns a text for each of two reads and the tool returns the same
    answer for both, the two texts are the same.  (The answer is the JSON
    string literal of the text, which can be read back.) *)
Theorem get_file_contents_answer_determines_text
    (path1 path2 text1 text2 : string) (w1 w2 : World) :
  (respond (the_client cfg) (get_file_contents path1) w1).1 = Return (VStr text1) ->
  (respond (the_client cfg) (get_file_contents path2) w2).1 = Return (VStr text2) ->
  (run (obsidian_get_file_contents respond cfg path1) w1).1
  = (run (obsidian_get_file_contents respond cfg path2) w2).1 ->
  text1 = text2.
Proof.
  intros H1 H2.
  assert (Hcall : forall path,
             calls_once respond cfg (obsidian_get_file_contents respond cfg path)
               (get_file_contents path) as_json)
    by (intros path; apply (construct_invoke_then respond cfg _ as_json)).
  rewrite (Hcall path1 w1), (Hcall path2 w2). cbn [fst]. rewrite H1, H2.
  unfold obind, as_json. intros H. apply json_dumps_str_inj.
  exact (f_equal (fun o => match o with
                           | Return (VStr t) => t
                           | _ => EmptyString
                           end) H).
Qed.

End FileContents.

Section Returns.

Context {World : Type}.
Variable respond : client -> call -> World -> outcome value * World.
Variable cfg : config.

(** X12: no tool returns without having asked the vault: a tool call that
    returns has made exactly one client call, and that call returned. *)
Theorem return_implies_successful_call (r : request) (w : World) (v : value) :
  (run (handle respond cfg r) w).1 = Return v ->
  exists c answer,
    trace (run (handle respond cfg r) w).2
    = [Construct (the_client cfg); Invoke (the_client cfg) c]
    /\ (respond (the_client cfg) c w).1 = Return answer.
Proof.
  destruct (handle_cases respond cfg r w) as [(msg & ->) | (c & post & ->)];
    cbn [fst snd trace]; [discriminate|].
  intros Hret. exists c.
  destruct (respond (the_client cfg) c w).1 as [answer|e]; [|discriminate].
  now exists answer.
Qed.

End Returns.

(** ** The further properties on the vault in memory *)

Lemma tool_call_invokes_client_at_most_once_witness :
  (world (run (handle demo_vault demo_cfg (req_delete_file "notes/a.md" None))
            demo_files).2 = demo_files
   /\ exists msg,
        (run (handle demo_vault demo_cfg (req_delete_file "notes/a.md" None))
           demo_files).1 = Raise (RuntimeError msg))
  /\ exists c,
       trace (run (handle demo_vault demo_cfg (req_get_file_contents "notes/a.md"))
                demo_files).2
       = [Construct (the_client demo_cfg); Invoke (the_client demo_cfg) c]
       /\ world (run (handle demo_vault demo_cfg (req_get_file_contents "notes/a.md"))
                   demo_files).2
          = (demo_vault (the_client demo_cfg) c demo_files).2.
Proof.
  split.
  - apply (tool_call_invokes_client_at_most_once demo_vault demo_cfg
             (req_delete_file "notes/a.md" None) demo_files).
    reflexivity.
  - apply (tool_call_invokes_client_at_most_once demo_vault demo_cfg
             (req_get_file_contents "notes/a.md") demo_files).
    reflexivity.
Defined.

Lemma only_delete_file_deletes_witness :
  exists confirm,
    req_delete_file "notes/a.md" (Some (VInt 1)) = req_delete_file "notes/a.md" confirm.
Proof.
  apply (proj2 (only_delete_file_deletes demo_vault demo_cfg
                  (req_delete_file "notes/a.md" (Some (VInt 1))) demo_files)
           (the_client demo_cfg) "notes/a.md").
  apply elem_of_cons. right. apply elem_of_cons. left. reflexivity.
Defined.

Lemma client_exception_propagates_witness :
  (run (handle demo_vault demo_cfg (req_get_file_contents "notes/missing.md"))
     demo_files).1
  = Raise (ClientError "Exception" "Error 40400: Not Found").
Proof.
  apply (client_exception_propagates demo_vault demo_cfg
           (req_get_file_contents "notes/missing.md") demo_files
           (get_file_contents "notes/missing.md")).
  - apply elem_of_cons. right. apply elem_of_cons. left. reflexivity.
  - reflexivity.
Defined.

Lemma tools_return_text_witness :
  exists text, VStr "[]" = VStr text.
Proof.
  apply (tools_return_text demo_vault demo_cfg req_list_files_in_vault demo_files
           (VStr "[]")).
  reflexivity.
Defined.

Lemma load_module_succeeds_iff_witness :
  load_module demo_env "/srv/vault"
  = Return {| api_key := "secret"; obsidian_host := "127.0.0.1" |}.
Proof.
  apply (proj2 (load_module_succeeds_iff demo_env "/srv/vault"
                  {| api_key := "secret"; obsidian_host := "127.0.0.1" |})).
  exists "secret". repeat split. discriminate.
Defined.

Lemma served_clients_use_environment_witness :
  exists key,
    demo_env !! "OBSIDIAN_API_KEY" = Some key
    /\ key <> EmptyString
    /\ event_client (Construct (the_client demo_cfg))
       = {| client_api_key := key;
            client_host := match demo_env !! "OBSIDIAN_HOST" with
                           | Some host => host
                           | None => "127.0.0.1"
                           end |}.
Proof.
  apply (served_clients_use_environment demo_vault demo_env "/srv/vault"
           req_list_files_in_vault demo_files (Construct (the_client demo_cfg))).
  apply elem_of_cons. left. reflexivity.
Defined.


Lemma recent_changes_decision_witness :
  rejects (obsidian_get_recent_changes demo_vault demo_cfg (Some (VFloat "3.0")) None)
    (RuntimeError "Invalid limit: 3.0. Must be a positive integer")
  /\ rejects (obsidian_get_recent_changes demo_vault demo_cfg None (Some (VInt 0)))
       (RuntimeError "Invalid days: 0. Must be a positive integer")
  /\ calls_once demo_vault demo_cfg
       (obsidian_get_recent_changes demo_vault demo_cfg None (Some (VBool true)))
       (get_recent_changes (VInt 10) (VBool true)) as_json.
Proof.
  split; [|split].
  - apply (recent_changes_decision demo_vault demo_cfg (Some (VFloat "3.0")) None).
    reflexivity.
  - apply (recent_changes_decision demo_vault demo_cfg None (Some (VInt 0)));
      reflexivity.
  - apply (recent_changes_decision demo_vault demo_cfg None (Some (VBool true)));
      reflexivity.
Defined.

Lemma format_results_decision_witness :
  format_results (VList demo_hits)
  = Return (VStr (json_dumps (VList (map result_shape demo_hits))))
  /\ exists msg,
       format_results (VList [VDict [("matches", VNone)]]) = Raise (TypeError msg)
       \/ format_results (VList [VDict [("matches", VNone)]]) = Raise (AttributeError msg).
Proof.
  split.
  - apply (proj1 (format_results_decision (VList demo_hits))). reflexivity.
  - apply (proj2 (format_results_decision (VList [VDict [("matches", VNone)]]))).
    reflexivity.
Defined.

Lemma get_file_contents_answer_determines_text_witness :
  "alpha beta" = "alpha beta".
Proof.
  apply (get_file_contents_answer_determines_text demo_vault demo_cfg
           "notes/a.md" "copy.md" "alpha beta" "alpha beta"
           demo_files {[ "copy.md" := "alpha beta" ]});
    reflexivity.
Defined.

Lemma return_implies_successful_call_witness :
  exists c answer,
    trace (run (handle demo_vault demo_cfg (req_put_content "b.md" "text")) demo_files).2
    = [Construct (the_client demo_cfg); Invoke (the_client demo_cfg) c]
    /\ (demo_vault (the_client demo_cfg) c demo_files).1 = Return answer.
Proof.
  apply (return_implies_successful_call demo_vault demo_cfg
           (req_put_content "b.md" "text") demo_files
           (VStr "Successfully uploaded content to b.md")).
  reflexivity.
Defined.

(** ** Writing a file and reading it back *)

Section PutThenGet.

Context {World : Type}.
Variable respond : client -> call -> World -> outcome value * World.
Variable cfg : config.

(** X13: [obsidian_put_content] followed by [obsidian_get_file_contents] on
    the same path, over a client that reads back the text it has stored:
    the first call returns its confirmation, and the second returns the
    JSON string literal of the stored text, which is not the text itself
    but reads back to it. *)
Theorem put_then_get_returns_json_of_text
    (filepath text : string) (w w' : World) (answer : value) :
  respond (the_client cfg) (put_content filepath text) w = (Return answer, w') ->
  (respond (the_client cfg) (get_file_contents filepath) w').1 = Return (VStr text) ->
  let first := run (obsidian_put_content respond cfg filepath text) w in
  let second := run (obsidian_get_file_contents respond cfg filepath) (world first.2) in
  first.1 = Return (VStr ("Successfully uploaded content to " +:+ filepath))
  /\ second.1 = Return (VStr (DQ +:+ json_escape text +:+ DQ))
  /\ second.1 <> Return (VStr text)
  /\ json_unescape (json_escape text) = Some text.
Proof.
  intros Hput Hget first second.
  assert (Hfirst : first = (Return (VStr ("Successfully uploaded content to " +:+ filepath)),
                            {| world := w';
                               trace := [Construct (the_client cfg);
                                         Invoke (the_client cfg)
                                           (put_content filepath text)] |})).
  { subst first.
    rewrite (construct_invoke_then respond cfg (put_content filepath text)
               (confirmation ("Successfully uploaded content to " +:+ filepath)) w
             : run (obsidian_put_content respond cfg filepath text) w = _).
    rewrite Hput. reflexivity. }
  assert (Hsecond : second.1 = Return (VStr (json_dumps (VStr text)))).
  { subst second. rewrite Hfirst. cbn [snd world].
    rewrite (construct_invoke_then respond cfg (get_file_contents filepath) as_json w'
             : run (obsidian_get_file_contents respond cfg filepath) w' = _).
    cbn [fst]. rewrite Hget. reflexivity. }
  split; [now rewrite Hfirst|]. split; [exact Hsecond|]. split.
  - rewrite Hsecond. intros H. apply (json_dumps_str_not_raw text). congruence.
  - pose proof (json_unescape_escape text EmptyString) as H.
    rewrite append_nil_r in H. rewrite H.
    change (json_unescape EmptyString) with (Some EmptyString).
    cbn [fmap option_fmap option_map]. now rewrite append_nil_r.
Qed.

End PutThenGet.

Lemma put_then_get_returns_json_of_text_witness :
  (run (obsidian_get_file_contents demo_vault demo_cfg "b.md")
     (world (run (obsidian_put_content demo_vault demo_cfg "b.md" "say \hi/")
               demo_files).2)).1
  = Return (VStr (DQ +:+ json_escape "say \hi/" +:+ DQ)).
Proof.
  apply (put_then_get_returns_json_of_text demo_vault demo_cfg "b.md" "say \hi/"
           demo_files (<["b.md" := "say \hi/"]> demo_files) VNone);
    reflexivity.
Defined.
